(** * Designing Machine Learning Workflows in Python: the notebooks' own logic

    The notebooks [00_the_standard_workflow] and [01_the_human_in_the_loop]
    are sequences of cells calling numpy, pandas, scikit-learn and pickle.
    This development embeds the hand-written functions ([my_metric],
    [my_scorer], [featurize], [more_than_average]) and the cells around
    them (the loan cost cell, the deployment cell, the champion/challenger
    cell, the grid searches), together with the part of the library calls
    they rely on, and proves what they compute. *)

From Stdlib Require Import ZArith Lia PrimFloat Uint63 Floats QArith Qcanon.
From stdpp Require Import numbers sorting pretty strings gmap fin_maps list.

Open Scope Z_scope.

(** ** Python outcomes: a value or a raised exception *)

Inductive exn : Type :=
| ValueError
| IndexError
| KeyError
| TypeError
| FileNotFoundError
| UnpicklingError
| LibraryError (tag : string).

Inductive outcome (A : Type) : Type :=
| Ok (a : A)
| Raise (e : exn).

Arguments Ok {A} a.
Arguments Raise {A} e.

#[export] Instance outcome_ret : MRet outcome := fun A a => Ok a.

#[export] Instance outcome_bind : MBind outcome := fun A B k r =>
  match r with
  | Ok a => k a
  | Raise e => Raise e
  end.

(** A cell or a function runs in the interpreter: it reads and writes a
    state [W] (files, printed output, arrays on the heap) and either
    returns or raises. What was written before a raise stays written. *)
Definition nb (W A : Type) : Type := W -> outcome A * W.

#[export] Instance nb_ret {W} : MRet (nb W) := fun A a w => (Ok a, w).

#[export] Instance nb_bind {W} : MBind (nb W) := fun A B k m w =>
  match m w with
  | (Ok a, w') => k a w'
  | (Raise e, w') => (Raise e, w')
  end.

(** A library call that touches no state. *)
Definition lib {W A} (r : outcome A) : nb W A := fun w => (r, w).

(** [try: m finally: cleanup], which is what leaving a [with] block does:
    the cleanup runs on both exits and the outcome of [m], a value or an
    exception, is passed on; only an exception of the cleanup itself
    replaces it. *)
Definition finally {W A} (m : nb W A) (cleanup : nb W ()) : nb W A := fun w =>
  match m w with
  | (r, w') =>
      match cleanup w' with
      | (Ok _, w'') => (r, w'')
      | (Raise e, w'') => (Raise e, w'')
      end
  end.

(** ** Python numbers

    The cost weights are whatever numbers the caller passes; [*] and [+]
    are Python's, on those values. [of_int64] is a numpy [int64] count
    seen as a Python number, [of_float] a float literal. *)
Class PyNum (val : Type) : Type := {
  num_mul : val -> val -> val;
  num_add : val -> val -> val;
  of_int64 : Z -> val;
  of_float : float -> val
}.

(** IEEE binary64, the type of the default weights [10.0] and [1.0]. *)
#[export] Instance float_num : PyNum float := {
  num_mul := PrimFloat.mul;
  num_add := PrimFloat.add;
  of_int64 z := PrimFloat.of_uint63 (Uint63.of_Z z);
  of_float f := f
}.

(** ** sklearn.metrics.confusion_matrix on boolean labels

    With [labels=None] the matrix is indexed by the sorted distinct labels
    that occur in [y_true] or [y_pred] ([unique_labels], False before
    True); entry [i, j] counts the samples whose true label is the i-th
    and whose predicted label is the j-th. So the matrix is 2 x 2 only
    when both labels occur, and 1 x 1 when a single one does. Inputs of
    different lengths raise [ValueError]. The entries are [int64]; a count
    is at most the number of samples. *)
Definition unique_labels (y_true y_pred : list bool) : list bool :=
  filter (fun b => b ∈ y_true ++ y_pred) [false; true].

Definition cell_count (y_true y_pred : list bool) (a b : bool) : Z :=
  Z.of_nat (length (filter (fun tp : bool * bool => tp = (a, b)) (zip y_true y_pred))).

Definition confusion_matrix (y_true y_pred : list bool) : outcome (list (list Z)) :=
  if decide (length y_true = length y_pred) then
    let labels := unique_labels y_true y_pred in
    Ok (map (fun a => map (fun b => cell_count y_true y_pred a b) labels) labels)
  else Raise ValueError.

(** [ndarray.ravel()]: the rows one after the other. *)
Definition ravel (cm : list (list Z)) : list Z := concat cm.

(** [tn, fp, fn, tp = xs]: unpacking into four names needs exactly four
    values, otherwise Python raises [ValueError]. *)
Definition unpack4 {A} (xs : list A) : outcome (A * A * A * A) :=
  match xs with
  | [a; b; c; d] => Ok (a, b, c, d)
  | _ => Raise ValueError
  end.

(** ** The cost-weighted scorers *)

Section Scorers.
Context {W val : Type} {num : PyNum val}.

(** Notebook 00:
    def my_metric(y_test, y_est, cost_fp=10.0, cost_fn=1.0):
        tn, fp, fn, tp = confusion_matrix(y_test, y_est).ravel()
        return cost_fp * fp + cost_fn * fn
    An omitted weight is [None] here and takes the default. *)
Definition my_metric (y_test y_est : list bool) (cost_fp cost_fn : option val) : nb W val :=
  let cost_fp := default (of_float 10%float) cost_fp in
  let cost_fn := default (of_float 1%float) cost_fn in
  cm ← lib (confusion_matrix y_test y_est);
  '(tn, fp, fn, tp) ← lib (unpack4 (ravel cm));
  mret (num_add (num_mul cost_fp (of_int64 fp)) (num_mul cost_fn (of_int64 fn))).

(** Notebook 01, the same body under another name. *)
Definition my_scorer (y_test y_est : list bool) (cost_fp cost_fn : option val) : nb W val :=
  let cost_fp := default (of_float 10%float) cost_fp in
  let cost_fn := default (of_float 1%float) cost_fn in
  cm ← lib (confusion_matrix y_test y_est);
  '(tn, fp, fn, tp) ← lib (unpack4 (ravel cm));
  mret (num_add (num_mul cost_fp (of_int64 fp)) (num_mul cost_fn (of_int64 fn))).

End Scorers.

(** The counts the specification speaks of, by index. *)
Definition false_positive_count (y_test y_est : list bool) : Z :=
  Z.of_nat (length (filter
    (fun i => y_test !! i = Some false /\ y_est !! i = Some true)
    (seq 0 (length y_test)))).

Definition false_negative_count (y_test y_est : list bool) : Z :=
  Z.of_nat (length (filter
    (fun i => y_test !! i = Some true /\ y_est !! i = Some false)
    (seq 0 (length y_test)))).

(** ** Files and printed output

    A file object is modelled by the path it was opened on. The cells open
    a file, read or write it once from position 0 and leave it, so a read
    returns the whole content and a write appends to what [open] left. *)
Record world : Type := World {
  files : gmap string (list Byte.byte);
  stdout : list string
}.

Definition set_files (f : gmap string (list Byte.byte) -> gmap string (list Byte.byte))
  (w : world) : world :=
  {| files := f (files w); stdout := stdout w |}.

(** [print(x)]: one more line of output. *)
Definition print (line : string) : nb world () := fun w =>
  (Ok (), {| files := files w; stdout := stdout w ++ [line] |}).

(** [open(path, 'rb')]: the file has to exist. *)
Definition open_rb (path : string) : nb world string := fun w =>
  match files w !! path with
  | Some _ => (Ok path, w)
  | None => (Raise FileNotFoundError, w)
  end.

(** [open(path, 'wb')]: creates the file, or truncates it. *)
Definition open_wb (path : string) : nb world string := fun w =>
  (Ok path, set_files (insert path []) w).

Definition file_read (file : string) : nb world (list Byte.byte) := fun w =>
  match files w !! file with
  | Some content => (Ok content, w)
  | None => (Raise FileNotFoundError, w)
  end.

Definition file_write (file : string) (data : list Byte.byte) : nb world () := fun w =>
  (Ok (), set_files (alter (fun content => content ++ data) file) w).

Definition file_close (file : string) : nb world () := mret ().

(** [with opener as file: body file] *)
Definition with_open {A} (opener : nb world string) (body : string -> nb world A)
  : nb world A :=
  file ← opener; finally (body file) (file_close file).

(** ** pickle and the estimators

    [dumps] and [loads] are pickle's encoder and decoder on the models at
    hand; the estimators are scikit-learn's. A fit with a fixed
    [random_state] is a function of the training data. Every call may
    raise. *)
Class Pickle (model : Type) : Type := {
  dumps : model -> outcome (list Byte.byte);
  loads : list Byte.byte -> outcome model
}.

Class Estimators (X Y model score : Type) : Type := {
  fit_random_forest : Z -> X -> list Y -> outcome model;
  fit_gaussian_nb : X -> list Y -> outcome model;
  predict : model -> X -> outcome (list Y);
  f1_score : list Y -> list Y -> outcome score;
  str_score : score -> string
}.

(** pickle's documented contract on the estimators: a fitted model can be
    pickled, and what [dumps] produced [loads] reads back as the same
    object state. *)
Definition pickle_contract (model : Type) {pk : Pickle model} : Prop :=
  forall m : model, exists data, dumps m = Ok data /\ loads data = Ok m.

Section Persistence.
Context {X Y model score : Type} {pk : Pickle model} {est : Estimators X Y model score}.

(** [pickle.dump(obj, file=file)] *)
Definition pickle_dump (obj : model) (file : string) : nb world () :=
  data ← lib (dumps obj); file_write file data.

(** [pickle.load(file)] *)
Definition pickle_load (file : string) : nb world model :=
  data ← file_read file; lib (loads data).

(** with open('model.pkl', 'wb') as file:
        pickle.dump(clf, file=file) *)
Definition save_model (clf : model) : nb world () :=
  with_open (open_wb "model.pkl") (fun file => pickle_dump clf file).

(** with open('model.pkl', 'rb') as file:
        clf_from_file = pickle.load(file) *)
Definition load_model : nb world model :=
  with_open (open_rb "model.pkl") (fun file => pickle_load file).

(** Notebook 00, model deployment:
    clf = RandomForestClassifier(random_state=42).fit(X_train, y_train)
    with open('model.pkl', 'wb') as file:
        pickle.dump(clf, file=file)
    with open('model.pkl', 'rb') as file:
        clf_from_file = pickle.load(file)
    preds = clf_from_file.predict(X_test)
    The cell's value here is what it binds: clf, clf_from_file, preds. *)
Definition deployment_cell (X_train : X) (y_train : list Y) (X_test : X)
  : nb world (model * model * list Y) :=
  clf ← lib (fit_random_forest 42 X_train y_train);
  _ ← save_model clf;
  clf_from_file ← load_model;
  preds ← lib (predict clf_from_file X_test);
  mret (clf, clf_from_file, preds).

(** Notebook 00, iterating without overfitting:
    champion = pickle.load(open('model.pkl', 'rb'))
    challenger = GaussianNB().fit(X_train, y_train)
    print(f1_score(y_test, champion.predict(X_test)))
    print(f1_score(y_test, challenger.predict(X_test)))
    # Write back to disk the best-performing model
    with open('model.pkl', 'wb') as file:
        pickle.dump(champion, file=file)
    The cell's value here is the pair champion, challenger. *)
Definition champion_challenger_cell (X_train : X) (y_train : list Y)
  (X_test : X) (y_test : list Y) : nb world (model * model) :=
  champion ← (file ← open_rb "model.pkl"; pickle_load file);
  challenger ← lib (fit_gaussian_nb X_train y_train);
  champion_preds ← lib (predict champion X_test);
  champion_f1 ← lib (f1_score y_test champion_preds);
  _ ← print (str_score champion_f1);
  challenger_preds ← lib (predict challenger X_test);
  challenger_f1 ← lib (f1_score y_test challenger_preds);
  _ ← print (str_score challenger_f1);
  _ ← with_open (open_wb "model.pkl") (fun file => pickle_dump champion file);
  mret (champion, challenger).

End Persistence.

(** ** The loan cost cell

    The counts come out of the confusion matrix as numpy [int64]; a product
    or sum of [int64] scalars wraps around. *)
Definition wrap64 (z : Z) : Z := (z + 2 ^ 63) mod 2 ^ 64 - 2 ^ 63.

Section LoanCost.
Context {X model score : Type} {est : Estimators X bool model score}.

(** Notebook 01, loss functions part I:
    clf = RandomForestClassifier(random_state=2).fit(X_train, y_train)
    preds = clf.predict(X_test)
    tn, fp, fn, tp = confusion_matrix(y_test, preds).ravel()
    cost = fp*10 + fn*150
    print(cost)
    The cell's value here is [cost]. *)
Definition loan_cost_cell (X_train : X) (y_train : list bool)
  (X_test : X) (y_test : list bool) : nb world Z :=
  clf ← lib (fit_random_forest 2 X_train y_train);
  preds ← lib (predict clf X_test);
  cm ← lib (confusion_matrix y_test preds);
  '(tn, fp, fn, tp) ← lib (unpack4 (ravel cm));
  let cost := wrap64 (wrap64 (fp * 10) + wrap64 (fn * 150)) in
  _ ← print (pretty cost);
  mret cost.

End LoanCost.

(** ** Grid search (sklearn.model_selection)

    A parameter grid is a dict from parameter names to the values to try.
    [ParameterGrid] sorts the items by name and yields the cartesian
    product, the last name varying fastest; a parameter with no value is
    rejected with [ValueError]. [GridSearchCV.fit] scores every candidate
    by cross-validation ([mean_test_score]; a candidate whose fits failed
    scores [nan]), may fail as a whole ([search_failure], e.g. when every
    fit failed), and reports as [best_params_] the first candidate of the
    best rank. *)
Section GridSearch.
Context {V score : Type}.
Variable mean_test_score : gmap string V -> score.
Variable better : score -> score -> bool.
Variable search_failure : list (gmap string V) -> option exn.

Definition name_le (a b : string * list V) : Prop := String.leb a.1 b.1 = true.

#[local] Instance name_le_dec a b : Decision (name_le a b) :=
  decide (String.leb a.1 b.1 = true).

Definition sorted_items (param_grid : gmap string (list V)) : list (string * list V) :=
  merge_sort name_le (map_to_list param_grid).

Fixpoint product (items : list (string * list V)) : list (gmap string V) :=
  match items with
  | [] => [∅]
  | (name, values) :: rest =>
      v ← values; params ← product rest; [<[name := v]> params]
  end.

Definition ParameterGrid (param_grid : gmap string (list V))
  : outcome (list (gmap string V)) :=
  if decide (map_Forall (fun _ values => length values ≠ 0%nat) param_grid)
  then Ok (product (sorted_items param_grid))
  else Raise ValueError.

(** [rank_test_score.argmin()]: the first candidate no later one beats. *)
Fixpoint best_candidate (best : gmap string V) (rest : list (gmap string V))
  : gmap string V :=
  match rest with
  | [] => best
  | c :: rest' =>
      best_candidate
        (if better (mean_test_score c) (mean_test_score best) then c else best) rest'
  end.

(** [GridSearchCV(estimator, param_grid=param_grid).fit(X, y).best_params_] *)
Definition grid_search_best_params (param_grid : gmap string (list V))
  : outcome (gmap string V) :=
  candidates ← ParameterGrid param_grid;
  match candidates with
  | [] => Raise ValueError
  | c :: cs =>
      match search_failure candidates with
      | Some e => Raise e
      | None => Ok (best_candidate c cs)
      end
  end.

End GridSearch.

(** The grids of notebook 00. *)
Definition params_pipeline : gmap string (list Z) :=
  {[ "feature_selection__k" := [10; 20]; "clf__n_estimators" := [2; 5] ]}.

Definition params_ft : gmap string (list Z) :=
  {[ "ft__multiplier" := [1; 2; 3] ]}.

(** The grid-search cells. [GridSearchCV] is built without [error_score],
    so with its default [np.nan]: a candidate one of whose fits raises is
    not an error of the search, its score is [error_score] and the search
    goes on. [cross_validate] is the fitting and scoring of one candidate
    on the folds, [repr] the text of a dict. *)
Section GridSearchCell.
Context {V score : Type}.
Variable cross_validate : gmap string V -> outcome score.
Variable error_score : score.
Variable better : score -> score -> bool.
Variable search_failure : list (gmap string V) -> option exn.
Variable repr : gmap string V -> string.



End GridSearchCell.

(** ** Binary64 sums, as numpy takes them

    An [int64] becomes the nearest binary64. numpy adds the numbers of one
    inner loop pairwise: fewer than eight from left to right; up to 128
    with eight running sums, combined as a tree, and the remainder added
    from left to right; more than 128 by halves, the cut at a multiple of
    eight. A sum that converts its input (an [int64] column summed as
    [float64]) goes through buffers of 8192 elements, one inner loop each,
    accumulated from left to right. *)
Definition float_of_Z (z : Z) : float := SF2Prim (binary_normalize prec emax z 0 false).

Definition sum_left (start : float) (xs : list float) : float :=
  foldl PrimFloat.add start xs.

Fixpoint running_sums (groups : nat) (r rest : list float) : list float * list float :=
  match groups with
  | O => (r, rest)
  | S groups' =>
      running_sums groups' (zip_with PrimFloat.add r (take 8 rest)) (drop 8 rest)
  end.

Definition block_sum (a : list float) : float :=
  match running_sums (length a / 8 - 1) (take 8 a) (drop 8 a) with
  | ([r0; r1; r2; r3; r4; r5; r6; r7], rest) =>
      sum_left (((r0 + r1) + (r2 + r3)) + ((r4 + r5) + (r6 + r7)))%float rest
  | (_, _) => sum_left 0%float a
  end.

Fixpoint pairwise_sum (fuel : nat) (a : list float) : float :=
  if (length a <? 8)%nat then sum_left 0%float a
  else if (length a <=? 128)%nat then block_sum a
  else match fuel with
       | O => block_sum a
       | S fuel' =>
           let n2 := (length a / 2 - (length a / 2) mod 8)%nat in
           (pairwise_sum fuel' (take n2 a) + pairwise_sum fuel' (drop n2 a))%float
       end.

(** [np.add.reduce] over binary64 numbers in place. *)
Definition numpy_sum (a : list float) : float :=
  (0 + pairwise_sum (length a) a)%float.

(** The same through the conversion buffers. *)
Fixpoint buffered_sum (fuel : nat) (acc : float) (a : list float) : float :=
  match a, fuel with
  | [], _ | _, O => acc
  | _, S fuel' =>
      let buffer := take (64 * 128) a in
      buffered_sum fuel' (acc + pairwise_sum (length buffer) buffer)%float
                   (drop (64 * 128) a)
  end.

(** ** featurize (pandas, numpy)

    A data frame is a dict of columns; a cell holds an integer or a
    string. [np.mean] of a column is [Series.mean], a binary64: on a
    column with no row it is [nan]; on a column with at least one row it
    is what the library computes, the sum in the library's order divided
    by the count for a numeric column, and for a column that holds a
    string whatever pandas makes of it, an exception as a rule. Those
    library results are the three functions of [Numpy]. *)
Inductive cell : Type :=
| CInt (z : Z)
| CStr (s : string).

#[export] Instance cell_eq_dec : EqDecision cell.
Proof. solve_decision. Defined.

#[export] Instance cell_countable : Countable cell.
Proof.
  refine (inj_countable'
    (fun c => match c with CInt z => inl z | CStr s => inr s end)
    (fun x => match x with inl z => CInt z | inr s => CStr s end) _).
  intros []; reflexivity.
Defined.

Inductive pyvalue : Type :=
| VInt (z : Z)
| VFloat (x : float).

Class Numpy : Type := {
  mean_int64 : list Z -> float;
  mean_float64 : list float -> float;
  mean_object : list cell -> outcome float
}.

(** [df[name]] *)
Definition getitem (df : gmap string (list cell)) (name : string) : outcome (list cell) :=
  match df !! name with
  | Some column => Ok column
  | None => Raise KeyError
  end.

(** [len(set(column))] *)
Definition len_set (column : list cell) : Z :=
  Z.of_nat (size (list_to_set (C := gset cell) column)).

(** The values of a column of integers; [None] when it holds a string. *)
Fixpoint int64_values (column : list cell) : option (list Z) :=
  match column with
  | [] => Some []
  | CInt z :: rest => zs ← int64_values rest; Some (z :: zs)
  | CStr _ :: _ => None
  end.

(** [np.mean(column)] *)
Definition np_mean {np : Numpy} (column : list cell) : outcome float :=
  match column with
  | [] => Ok nan
  | _ :: _ =>
      match int64_values column with
      | Some zs => Ok (mean_int64 zs)
      | None => mean_object column
      end
  end.

Section Featurize.
Context {W : Type} {np : Numpy}.

(** Notebooks 00 and 01:
    def featurize(df):
        return {
            'unique_ports': len(set(df['destination_port'])),
            'average_packet': np.mean(df['packet_count']),
            'average_duration': np.mean(df['duration'])
        } *)
Definition featurize (df : gmap string (list cell)) : nb W (gmap string pyvalue) :=
  ports ← lib (getitem df "destination_port");
  let unique_ports := len_set ports in
  packets ← lib (getitem df "packet_count");
  average_packet ← lib (np_mean packets);
  durations ← lib (getitem df "duration");
  average_duration ← lib (np_mean durations);
  mret (<["average_duration" := VFloat average_duration]>
        (<["average_packet" := VFloat average_packet]>
         {[ "unique_ports" := VInt unique_ports ]})).

End Featurize.

(** ** more_than_average (numpy arrays)

    A two-dimensional array lives on the heap and is passed by reference.
    [np_mean_val] is [np.mean] on the array's element type, [num_gt] is
    [>], and [of_bool] is the cast of a comparison result to the element
    type that an assignment into the array performs. *)
Class NdNum (val : Type) : Type := {
  np_mean_val : list val -> val;
  num_gt : val -> val -> bool;
  of_bool : bool -> val
}.

Record ndarray (val : Type) : Type := NdArray {
  ncols : nat;
  rows : list (list val)
}.

Arguments NdArray {val} ncols rows.
Arguments ncols {val} _.
Arguments rows {val} _.


Fixpoint column_of {val} (j : nat) (rs : list (list val)) : option (list val) :=
  match rs with
  | [] => Some []
  | row :: rest => x ← row !! j; col ← column_of j rest; Some (x :: col)
  end.

Section MoreThanAverage.
Context {val : Type} {num : PyNum val} {nd : NdNum val}.

(** [X.copy()]: a new array with the same content. *)
Definition ndarray_copy (x : nat) : nb (gmap nat (ndarray val)) nat := fun heap =>
  match heap !! x with
  | Some a => let z := fresh (dom heap) in (Ok z, <[z := a]> heap)
  | None => (Raise (LibraryError "no such array"), heap)
  end.

(** [Z[:,j]] read. *)
Definition get_column (z : nat) (j : nat) : nb (gmap nat (ndarray val)) (list val) :=
  fun heap =>
  match heap !! z with
  | Some a =>
      if decide (j < ncols a)%nat then
        match column_of j (rows a) with
        | Some col => (Ok col, heap)
        | None => (Raise IndexError, heap)
        end
      else (Raise IndexError, heap)
  | None => (Raise (LibraryError "no such array"), heap)
  end.

(** [Z[:,j] = values], in place. *)
Definition set_column (z : nat) (j : nat) (values : list val)
  : nb (gmap nat (ndarray val)) () := fun heap =>
  match heap !! z with
  | Some a =>
      if decide (j < ncols a)%nat then
        if decide (length values = length (rows a)) then
          (Ok (), <[z := NdArray (ncols a)
                           (zip_with (fun row v => <[j := v]> row) (rows a) values)]> heap)
        else (Raise ValueError, heap)
      else (Raise IndexError, heap)
  | None => (Raise (LibraryError "no such array"), heap)
  end.

(** Notebook 00:
    def more_than_average(X, multiplier=1.0):
      Z = X.copy()
      Z[:,1] = Z[:,1] > multiplier*np.mean(Z[:,1])
      return Z *)
Definition more_than_average (X : nat) (multiplier : option val)
  : nb (gmap nat (ndarray val)) nat :=
  let multiplier := default (of_float 1%float) multiplier in
  Z ← ndarray_copy X;
  column ← get_column Z 1;
  column' ← get_column Z 1;
  let flags := (fun x => num_gt x (num_mul multiplier (np_mean_val column'))) <$> column in
  _ ← set_column Z 1 (of_bool <$> flags);
  mret Z.

End MoreThanAverage.

(** Binary64 elements: the mean is numpy's sum divided by the count. *)
#[export] Instance float_ndnum : NdNum float := {
  np_mean_val xs :=
    PrimFloat.div (numpy_sum xs) (float_of_Z (Z.of_nat (length xs)));
  num_gt x y := PrimFloat.ltb y x;
  of_bool b := if b then 1%float else 0%float
}.

(** ** A small library instance, to run the cells

    The majority-class classifier: fitting keeps the more frequent label,
    predicting repeats it. It is pickled as one byte. The score counts
    the positions where two label vectors agree. *)
Definition majority (y : list bool) : bool :=
  (length (filter (fun b => b = false) y) <? length (filter (fun b => b = true) y))%nat.

Definition agreements (y_true y_pred : list bool) : nat :=
  length (filter (fun tp : bool * bool => tp.1 = tp.2) (zip y_true y_pred)).

Definition majority_estimators : Estimators (list Z) bool bool nat := {|
  fit_random_forest := fun (_ : Z) (_ : list Z) (y : list bool) => Ok (majority y);
  fit_gaussian_nb := fun (_ : list Z) (y : list bool) => Ok (majority y);
  predict := fun (m : bool) (X : list Z) => Ok (replicate (length X) m);
  f1_score := fun (y_true y_pred : list bool) => Ok (agreements y_true y_pred);
  str_score := pretty
|}.

Definition majority_pickle : Pickle bool := {|
  dumps := fun m : bool => Ok [if m then Byte.x01 else Byte.x00];
  loads := fun data : list Byte.byte =>
    match data with
    | [Byte.x00] => Ok false
    | [Byte.x01] => Ok true
    | _ => Raise UnpicklingError
    end
|}.

(** pandas' mean without bottleneck, for the examples. A numeric column:
    the missing values ([nan]) count as 0 in the sum and not in the count.
    A column that holds a string: [TypeError], as for any string pandas
    cannot read as a number. *)
Definition is_nan (x : float) : bool := negb (PrimFloat.eqb x x).

Definition pandas_mean : Numpy := {|
  mean_int64 zs :=
    PrimFloat.div (buffered_sum (length zs) 0%float (float_of_Z <$> zs))
                  (float_of_Z (Z.of_nat (length zs)));
  mean_float64 xs :=
    PrimFloat.div
      (numpy_sum ((fun x => if is_nan x then 0%float else x) <$> xs))
      (float_of_Z (Z.of_nat (length (filter (fun x => is_nan x = false) xs))));
  mean_object _ := Raise TypeError
|}.



Definition key_le {A} (a b : string * A) : Prop := String.leb a.1 b.1 = true.

#[export] Instance key_le_dec {A} (a b : string * A) : Decision (key_le a b) :=
  decide (String.leb a.1 b.1 = true).


(** * Further cells of the notebooks *)

(** ** Accuracy by hand (notebook 01)

    tp = sum((preds == True) & (y_test == True))
    tn = sum((preds == False) & (y_test == False))
    [preds] is the array of predictions and [y_test] the series of
    held-out labels; [==] against a scalar works element by element.
    [array & series] is the series' operation: the values are combined
    by numpy, element by element for equal lengths and with a single
    element of the array repeated along the series, and the result takes
    the index of the series; operands numpy cannot combine, or a result
    of another length than the series, raise [ValueError]. [sum] counts
    the [True]s. *)
Definition eq_scalar (xs : list bool) (b : bool) : list bool :=
  (fun x => Bool.eqb x b) <$> xs.

Definition and_elementwise (array series : list bool) : outcome (list bool) :=
  if decide (length array = length series) then Ok (zip_with andb array series)
  else match array with
       | [b] => Ok (andb b <$> series)
       | _ => Raise ValueError
       end.

Definition sum_bools (mask : list bool) : Z :=
  Z.of_nat (length (filter (fun b => b = true) mask)).

Definition true_positives (preds y_test : list bool) : outcome Z :=
  mask ← and_elementwise (eq_scalar preds true) (eq_scalar y_test true);
  Ok (sum_bools mask).

Definition true_negatives (preds y_test : list bool) : outcome Z :=
  mask ← and_elementwise (eq_scalar preds false) (eq_scalar y_test false);
  Ok (sum_bools mask).

(** ** Weights for noisy labels (notebook 01)

    weights = [0.5]*100 + [1.0]*(len(y_train_noisy)-100)
    A list times a count that is zero or negative is the empty list. *)
Definition py_repeat {A} (x : A) (count : Z) : list A := replicate (Z.to_nat count) x.

Definition noisy_weights (y_train_noisy : list bool) : list float :=
  py_repeat 0.5%float 100
  ++ py_repeat 1%float (Z.of_nat (length y_train_noisy) - 100).

(** ** Thresholds on predicted probabilities (notebook 01)

    A probability, an accuracy or an F1 score is a finite [float64]; its
    value is a rational and comparisons of floats are comparisons of
    those values. [xs[i]] on a list or an array raises [IndexError] out of
    range. *)
Definition getitem_list {A} (xs : list A) (i : nat) : outcome A :=
  match xs !! i with
  | Some x => Ok x
  | None => Raise IndexError
  end.

(** [[f(x) for x in xs]], stopping at the first exception. *)
Fixpoint comprehension {A B} (f : A -> outcome B) (xs : list A) : outcome (list B) :=
  match xs with
  | [] => Ok []
  | x :: rest => y ← f x; ys ← comprehension f rest; Ok (y :: ys)
  end.

(** [[s[1] > thr for s in scores]], each [s] a row of [predict_proba]. *)
Definition threshold_preds (scores : list (list Qc)) (thr : Qc) : outcome (list bool) :=
  comprehension (fun s => p ← getitem_list s 1; Ok (bool_decide (thr < p)%Qc)) scores.

(** [np.argmax(xs)]: the first position of the largest value; an empty
    sequence raises [ValueError]. *)
Fixpoint argmax_from (best_index : nat) (best : Qc) (index : nat) (rest : list Qc) : nat :=
  match rest with
  | [] => best_index
  | x :: rest' =>
      if bool_decide (best < x)%Qc then argmax_from index x (S index) rest'
      else argmax_from best_index best (S index) rest'
  end.

Definition np_argmax (xs : list Qc) : outcome nat :=
  match xs with
  | [] => Raise ValueError
  | x :: rest => Ok (argmax_from 0 x 1 rest)
  end.

(** t_range = [0, 0.25, 0.5, 0.75, 1] *)
Definition t_range : list Qc := [0; Q2Qc (1 # 4); Q2Qc (1 # 2); Q2Qc (3 # 4); 1]%Qc.

(** preds = [[s[1] > thr for s in scores] for thr in t_range]
    accuracies = [accuracy_score(y_test, p) for p in preds]
    ... t_range[np.argmax(accuracies)]
    and the same with [f1_score]; [metric] is either of them. *)
Definition best_threshold (metric : list bool -> list bool -> outcome Qc)
  (scores : list (list Qc)) (y_test : list bool) (thresholds : list Qc) : outcome Qc :=
  preds ← comprehension (threshold_preds scores) thresholds;
  values ← comprehension (metric y_test) preds;
  best ← np_argmax values;
  getitem_list thresholds best.

(** ** The sliding window (notebook 00)

    [range(start, stop, step)]: from [start] in steps of [step] while
    before [stop]; a zero step raises [ValueError]. *)
Definition py_range (start stop step : Z) : outcome (list Z) :=
  if decide (step = 0) then Raise ValueError
  else if decide (0 < step)
       then Ok ((fun k => start + k * step) <$> seqZ 0 ((stop - start + step - 1) / step))
       else Ok ((fun k => start + k * step) <$> seqZ 0 ((stop - start + step + 1) / step)).

(** [frame.loc[first:last]] on the default index 0, 1, ...: the rows whose
    label lies between [first] and [last], both included. *)
Definition loc_slice {A} (first last : Z) (rows : list A) : list A :=
  take (Z.to_nat (last + 1 - Z.max first 0)) (drop (Z.to_nat (Z.max first 0)) rows).

(** t_now = 400
    accuracies = []
    wrange = range(10, 100, 10)
    for w_size in wrange:
        sliding = arrh.loc[(t_now - w_size + 1):t_now]
        X, y = sliding.drop('class', axis=1), sliding['class']
        preds = GaussianNB().fit(X, y).predict(X_test)
        accuracies.append(f1_score(y_test, preds))
    optimal_window = wrange[np.argmax(accuracies)]
    [evaluate] is the body's fit, predict and score on one window. *)
Definition sliding_window_search {A} (evaluate : list A -> outcome Qc)
  (arrh : list A) (t_now : Z) (wrange : list Z) : outcome Z :=
  accuracies ← comprehension
                 (fun w_size => evaluate (loc_slice (t_now - w_size + 1) t_now arrh))
                 wrange;
  best ← np_argmax accuracies;
  getitem_list wrange best.

Definition optimal_window_cell {A} (evaluate : list A -> outcome Qc) (arrh : list A)
  : outcome Z :=
  wrange ← py_range 10 100 10;
  sliding_window_search evaluate arrh 400 wrange.

(** ** The port and packet heuristics (notebook 01)

    A row of the feature table [X]: one source computer, with an [int64]
    count and two [float64] averages. *)
Record host : Type := Host {
  unique_ports : Z;
  average_packet : float;
  average_duration : float
}.

(** [X_train[y_train]], where [y_train] is a list of booleans. A list
    with at least one boolean is a mask and selects the rows at the
    positions where it holds; a mask of another length than the frame
    raises [ValueError]. The empty list is no mask: it is an empty list
    of column names, and the selection is a frame without any column. *)
Inductive selection (A : Type) : Type :=
| Rows (rows : list A)
| NoColumn.

Arguments Rows {A} rows.
Arguments NoColumn {A}.

Definition mask_select {A} (rows : list A) (mask : list bool) : outcome (selection A) :=
  match mask with
  | [] => Ok NoColumn
  | _ :: _ =>
      if decide (length mask = length rows)
      then Ok (Rows ((filter (fun rm : A * bool => rm.2 = true) (zip rows mask)).*1))
      else Raise ValueError
  end.

(** [selected['name']] *)
Definition selected_column {A B} (field : A -> B) (selected : selection A)
  : outcome (list B) :=
  match selected with
  | Rows rows => Ok (field <$> rows)
  | NoColumn => Raise KeyError
  end.

(** [np.mean] of a column of floats. *)
Definition np_mean_floats {np : Numpy} (xs : list float) : float :=
  match xs with
  | [] => nan
  | _ :: _ => mean_float64 xs
  end.

Section Heuristics.
Context {np : Numpy}.

(** X_train_bad = X_train[y_train]
    avg_bad_ports = np.mean(X_train_bad['unique_ports']) *)
Definition avg_bad_ports (X_train : list host) (y_train : list bool) : outcome float :=
  X_train_bad ← mask_select X_train y_train;
  ports ← selected_column unique_ports X_train_bad;
  np_mean (CInt <$> ports).

(** pred_port = X_test['unique_ports'] > avg_bad_ports
    The counts are compared as binary64 numbers. *)
Definition pred_port (X_train : list host) (y_train : list bool) (X_test : list host)
  : outcome (list bool) :=
  avg ← avg_bad_ports X_train y_train;
  Ok ((fun h => PrimFloat.ltb avg (float_of_Z (unique_ports h))) <$> X_test).

(** avg_bad_packet = np.mean(X_train[y_train]['average_packet'])
    pred_packet = X_test['average_packet'] < avg_bad_packet
    pred_port = X_test['unique_ports'] > avg_bad_ports
    pred_both = pred_packet * pred_port
    The product of two boolean series on the same index is their
    conjunction, entry by entry. *)
Definition pred_both (X_train : list host) (y_train : list bool) (X_test : list host)
  : outcome (list bool) :=
  X_train_bad ← mask_select X_train y_train;
  packets ← selected_column average_packet X_train_bad;
  let avg_bad_packet := np_mean_floats packets in
  let pred_packet := (fun h => PrimFloat.ltb (average_packet h) avg_bad_packet) <$> X_test in
  port ← pred_port X_train y_train X_test;
  Ok (zip_with andb pred_packet port).

(** ** abs_diff (notebook 00)

    def abs_diff(x):
        return np.abs(x-np.mean(x))
    on a column of integers: the integers less the mean are binary64
    numbers. *)
Definition abs_diff (x : list Z) : outcome (list float) :=
  mean ← np_mean (CInt <$> x);
  Ok ((fun v => PrimFloat.abs (PrimFloat.sub (float_of_Z v) mean)) <$> x).

End Heuristics.

(** ** Label encoding of the string columns (notebooks 00 and 01)

    [LabelEncoder().fit_transform(column)]: the classes are the distinct
    values in sorted order, and each value is replaced by the position of
    its class. Integers sort by value, strings by code point; a column
    mixing the two is rejected with [TypeError]. *)
Definition cell_le (a b : cell) : Prop :=
  match a, b with
  | CInt x, CInt y => x <= y
  | CInt _, CStr _ => True
  | CStr _, CInt _ => False
  | CStr s, CStr t => String.leb s t = true
  end.

#[export] Instance cell_le_dec (a b : cell) : Decision (cell_le a b).
Proof. destruct a, b; cbn [cell_le]; apply _. Defined.

Definition is_int (c : cell) : bool := match c with CInt _ => true | CStr _ => false end.

Definition uniform (column : list cell) : bool :=
  forallb is_int column || forallb (fun c => negb (is_int c)) column.

Definition classes (column : list cell) : list cell :=
  merge_sort cell_le (remove_dups column).

Definition class_index (x : cell) (cls : list cell) : Z :=
  match list_find (fun c => c = x) cls with
  | Some (i, _) => Z.of_nat i
  | None => -1
  end.

Definition fit_transform (column : list cell) : outcome (list cell) :=
  if uniform column
  then Ok ((fun x => CInt (class_index x (classes column))) <$> column)
  else Raise TypeError.

(** non_numeric_columns = ['checking_status', ..., 'foreign_worker'] *)
Definition non_numeric_columns : list string :=
  ["checking_status"; "credit_history"; "purpose"; "savings_status"; "employment";
   "personal_status"; "other_parties"; "property_magnitude"; "other_payment_plans";
   "housing"; "job"; "own_telephone"; "foreign_worker"].

(** for column in non_numeric_columns:
        le = LabelEncoder()
        credit[column] = le.fit_transform(credit[column])
    The frame [credit] is the state; a column is replaced as soon as it
    is encoded. *)
Definition frame_get (name : string) : nb (gmap string (list cell)) (list cell) :=
  fun credit => (getitem credit name, credit).

Definition frame_set (name : string) (column : list cell)
  : nb (gmap string (list cell)) () :=
  fun credit => (Ok (), <[name := column]> credit).

Fixpoint encode_columns (columns : list string) : nb (gmap string (list cell)) () :=
  match columns with
  | [] => mret ()
  | column :: rest =>
      values ← frame_get column;
      codes ← lib (fit_transform values);
      _ ← frame_set column codes;
      encode_columns rest
  end.

(** ** Data fusion (notebooks 00 and 01)

    [frame.groupby(by).apply(func)]: the rows are grouped by their value
    in column [by], the groups are taken in the sorted order of those
    values, each group is the frame restricted to its rows, and the
    result is indexed by the group values. On a frame without any row
    there is no group; pandas then calls [func] once on the empty frame,
    for the exception it may raise, and drops the value. *)
Definition group_rows {A} (key : cell) (keys : list cell) (column : list A) : list A :=
  (filter (fun vk : A * cell => vk.2 = key) (zip column keys)).*1.

Definition group_frame (key : cell) (keys : list cell) (df : gmap string (list cell))
  : gmap string (list cell) :=
  group_rows key keys <$> df.

Definition groupby_apply {B} (df : gmap string (list cell)) (by_column : string)
  (func : gmap string (list cell) -> outcome B) : outcome (list (cell * B)) :=
  keys ← getitem df by_column;
  match keys with
  | [] => _ ← func (take 0 <$> df); Ok []
  | _ :: _ =>
      comprehension
        (fun key => value ← func (group_frame key keys df); Ok (key, value))
        (classes keys)
  end.

(** [frame.name], the column as an attribute. *)
Definition getattr (df : gmap string (list cell)) (name : string) : outcome (list cell) :=
  match df !! name with
  | Some column => Ok column
  | None => Raise (LibraryError "AttributeError")
  end.

(** [pd.DataFrame(list(out), index=out.index)]: one row per feature
    dict. Without any group [out] is not a series of dicts but an empty
    frame with the columns of the grouped frame; [list(out)] is then the
    list of those column names, which does not fit the empty index, and
    the constructor raises [ValueError]. *)
Definition data_frame {A} (out : list (cell * A)) : outcome (list (cell * A)) :=
  match out with
  | [] => Raise ValueError
  | _ :: _ => Ok out
  end.

(** bads = attack.destination_computer.values
    out = flows.groupby('source_computer').apply(featurize)
    X = pd.DataFrame(list(out), index=out.index)
    y = [x in bads for x in X.index]
    The value here is [X], one row of features per index entry, and [y]. *)
Definition fusion_cell {np : Numpy} (attack flows : gmap string (list cell))
  : outcome (list (cell * gmap string pyvalue) * list bool) :=
  bads ← getattr attack "destination_computer";
  out ← groupby_apply flows "source_computer" (fun group => (featurize group ()).1);
  X ← data_frame out;
  Ok (X, (fun x => bool_decide (x ∈ bads)) <$> X.*1).

(** [protocols = flows.groupby('source_computer').apply(
      lambda df: len(set(df['protocol'])))] *)
Definition protocols_cell (flows : gmap string (list cell)) : outcome (list (cell * Z)) :=
  groupby_apply flows "source_computer"
    (fun df => column ← getitem df "protocol"; Ok (len_set column)).
(** * Part II: what the notebooks compute *)

(** ** Counting by position *)

Lemma length_filter_fmap {A B} (f : A -> B) (P : B -> Prop)
  `{!forall x, Decision (P x)} (l : list A) :
  length (filter P (f <$> l)) = length (filter (fun x => P (f x)) l).
Proof.
  induction l as [|x l IH]; [reflexivity|].
  rewrite fmap_cons, !filter_cons.
  destruct (decide (P (f x))); simpl; congruence.
Qed.

Lemma length_filter_ext {A} (P Q : A -> Prop)
  `{!forall x, Decision (P x)} `{!forall x, Decision (Q x)} (l : list A) :
  (forall x, P x <-> Q x) -> length (filter P l) = length (filter Q l).
Proof.
  intros HPQ. induction l as [|x l IH]; [reflexivity|].
  rewrite !filter_cons.
  destruct (decide (P x)) as [HP|HP], (decide (Q x)) as [HQ|HQ]; simpl;
    try congruence; exfalso; [apply HQ, HPQ, HP | apply HP, HPQ, HQ].
Qed.

(** An entry of the confusion matrix counts positions. *)
Lemma cell_count_positions (y_true y_pred : list bool) (a b : bool) :
  length y_true = length y_pred ->
  cell_count y_true y_pred a b =
  Z.of_nat (length (filter
    (fun i => y_true !! i = Some a /\ y_pred !! i = Some b)
    (seq 0 (length y_true)))).
Proof.
  unfold cell_count. intros Hlen. f_equal.
  revert y_pred Hlen.
  induction y_true as [|t y_true IH]; intros [|p y_pred] Hlen;
    simpl in Hlen; try discriminate; [reflexivity|].
  injection Hlen as Hlen.
  cbn [zip zip_with length seq].
  rewrite <- fmap_S_seq, !filter_cons.
  assert (Htl : length (filter
                  (fun i => (t :: y_true) !! i = Some a /\ (p :: y_pred) !! i = Some b)
                  (S <$> seq 0 (length y_true)))
                = length (filter (fun tp : bool * bool => tp = (a, b)) (zip y_true y_pred))).
  { rewrite length_filter_fmap. symmetry. apply (IH y_pred Hlen). }
  destruct (decide ((t, p) = (a, b))) as [Heq|Hne];
    destruct (decide ((t :: y_true) !! 0%nat = Some a /\ (p :: y_pred) !! 0%nat = Some b))
      as [[H1 H2]|Hn]; simpl in *; rewrite ?Htl; try reflexivity; exfalso.
  - apply Hn. injection Heq as -> ->. split; reflexivity.
  - apply Hne. congruence.
Qed.

(** The matrix is 2 x 2 exactly when both labels occur. *)
Lemma unique_labels_both (y_true y_pred : list bool) :
  false ∈ y_true ++ y_pred -> true ∈ y_true ++ y_pred ->
  unique_labels y_true y_pred = [false; true].
Proof.
  intros Hf Ht. unfold unique_labels.
  rewrite filter_cons_True by exact Hf.
  rewrite filter_cons_True by exact Ht.
  reflexivity.
Qed.

Lemma confusion_matrix_binary (y_true y_pred : list bool) :
  length y_true = length y_pred ->
  false ∈ y_true ++ y_pred -> true ∈ y_true ++ y_pred ->
  confusion_matrix y_true y_pred =
  Ok [[cell_count y_true y_pred false false; cell_count y_true y_pred false true];
      [cell_count y_true y_pred true false; cell_count y_true y_pred true true]].
Proof.
  intros Hlen Hf Ht. unfold confusion_matrix.
  rewrite decide_True by exact Hlen.
  rewrite (unique_labels_both _ _ Hf Ht). reflexivity.
Qed.

Lemma my_metric_binary {W val} {num : PyNum val}
  (y_test y_est : list bool) (cost_fp cost_fn : option val) (w : W) :
  length y_test = length y_est ->
  false ∈ y_test ++ y_est -> true ∈ y_test ++ y_est ->
  my_metric y_test y_est cost_fp cost_fn w =
  (Ok (num_add
         (num_mul (default (of_float 10%float) cost_fp)
                  (of_int64 (false_positive_count y_test y_est)))
         (num_mul (default (of_float 1%float) cost_fn)
                  (of_int64 (false_negative_count y_test y_est)))), w).
Proof.
  intros Hlen Hf Ht.
  unfold my_metric, mbind, nb_bind, lib, mret, nb_ret.
  rewrite (confusion_matrix_binary _ _ Hlen Hf Ht).
  unfold false_positive_count, false_negative_count.
  rewrite <- !cell_count_positions by exact Hlen.
  reflexivity.
Qed.

Lemma my_scorer_is_my_metric {W val} {num : PyNum val}
  (y_test y_est : list bool) (cost_fp cost_fn : option val) :
  my_scorer (W := W) y_test y_est cost_fp cost_fn = my_metric y_test y_est cost_fp cost_fn.
Proof. reflexivity. Qed.

(** With a single label, or none, the matrix is not 2 x 2 and the
    unpacking raises: the condition of [my_metric_binary] is needed. *)
Lemma my_metric_single_label {W val} {num : PyNum val}
  (y_test y_est : list bool) (cost_fp cost_fn : option val) (w : W) :
  ~ (false ∈ y_test ++ y_est /\ true ∈ y_test ++ y_est) ->
  my_metric y_test y_est cost_fp cost_fn w = (Raise ValueError, w).
Proof.
  intros Hsingle.
  unfold my_metric, confusion_matrix, unique_labels.
  cbv [mbind nb_bind mret nb_ret lib].
  destruct (decide (length y_test = length y_est)); [|reflexivity].
  rewrite !filter_cons, filter_nil.
  destruct (decide (false ∈ y_test ++ y_est)), (decide (true ∈ y_test ++ y_est));
    try reflexivity.
  exfalso. apply Hsingle. split; assumption.
Qed.

(** ** The cost-weighted scorers *)

Example my_metric_demo :
  my_metric (W := unit) [false; false; true; true; false] [false; true; false; true; true]
            None None tt = (Ok 21%float, tt).
Proof. vm_compute. reflexivity. Qed.

(** C1 (as amended). For equal-length boolean label vectors in which both
    labels occur (in [y_test] or in [y_est]) and every pair of cost
    weights, [my_metric] and [my_scorer] return
    cost_fp * false_positive_count + cost_fn * false_negative_count,
    the counts being taken by position. *)
Theorem cost_weighted_score {W val} {num : PyNum val}
  (y_test y_est : list bool) (cost_fp cost_fn : val) (w : W) :
  length y_test = length y_est ->
  false ∈ y_test ++ y_est -> true ∈ y_test ++ y_est ->
  my_metric y_test y_est (Some cost_fp) (Some cost_fn) w =
    (Ok (num_add (num_mul cost_fp (of_int64 (false_positive_count y_test y_est)))
                 (num_mul cost_fn (of_int64 (false_negative_count y_test y_est)))), w)
  /\ my_scorer y_test y_est (Some cost_fp) (Some cost_fn) w =
    (Ok (num_add (num_mul cost_fp (of_int64 (false_positive_count y_test y_est)))
                 (num_mul cost_fn (of_int64 (false_negative_count y_test y_est)))), w).
Proof.
  intros Hlen Hf Ht.
  split; exact (my_metric_binary _ _ (Some cost_fp) (Some cost_fn) w Hlen Hf Ht).
Qed.

Lemma cost_weighted_score_witness :
  (length [false; true; true] = length [true; true; false]
   /\ false ∈ [false; true; true] ++ [true; true; false]
   /\ true ∈ [false; true; true] ++ [true; true; false])
  /\ my_metric [false; true; true] [true; true; false] (Some 2.5%float) (Some 4%float) tt
     = (Ok 6.5%float, tt).
Proof.
  assert (Hlen : length [false; true; true] = length [true; true; false]) by reflexivity.
  assert (Hf : false ∈ [false; true; true] ++ [true; true; false]) by (simpl; left).
  assert (Ht : true ∈ [false; true; true] ++ [true; true; false]) by (simpl; right; left).
  split; [exact (conj Hlen (conj Hf Ht))|].
  exact (proj1 (cost_weighted_score (W := unit) (val := float)
                  [false; true; true] [true; true; false]
                  2.5%float 4%float tt Hlen Hf Ht)).
Defined.

(** C1 as stated fails when a single label occurs: the confusion matrix is
    then 1 x 1 and unpacking it into four names raises, where the
    statement promises the score 10.0 * 0 + 1.0 * 0. *)
Lemma cost_weighted_score_single_class :
  length [false; false] = length [false; false]
  /\ false_positive_count [false; false] [false; false] = 0
  /\ false_negative_count [false; false] [false; false] = 0
  /\ my_metric (W := unit) [false; false] [false; false] (Some 10%float) (Some 1%float) tt
     = (Raise ValueError, tt)
  /\ my_scorer (W := unit) [false; false] [false; false] (Some 10%float) (Some 1%float) tt
     = (Raise ValueError, tt)
  /\ my_metric (W := unit) [false; false] [false; false] (Some 10%float) (Some 1%float) tt
     ≠ (Ok (num_add (num_mul 10%float (of_int64 0)) (num_mul 1%float (of_int64 0))), tt).
Proof.
  split; [reflexivity|]. split; [reflexivity|]. split; [reflexivity|].
  split; [vm_compute; reflexivity|]. split; [vm_compute; reflexivity|].
  vm_compute. discriminate.
Qed.

(** C9 (as amended). With no cost weights given, the weights are 10.0 and
    1.0: for equal-length boolean label vectors in which both labels
    occur, the score is 10.0 * false_positive_count
    + 1.0 * false_negative_count. *)
Theorem default_cost_weights {W val} {num : PyNum val}
  (y_test y_est : list bool) (w : W) :
  length y_test = length y_est ->
  false ∈ y_test ++ y_est -> true ∈ y_test ++ y_est ->
  my_metric y_test y_est None None w =
    (Ok (num_add (num_mul (of_float 10%float) (of_int64 (false_positive_count y_test y_est)))
                 (num_mul (of_float 1%float) (of_int64 (false_negative_count y_test y_est)))), w)
  /\ my_scorer y_test y_est None None w =
    (Ok (num_add (num_mul (of_float 10%float) (of_int64 (false_positive_count y_test y_est)))
                 (num_mul (of_float 1%float) (of_int64 (false_negative_count y_test y_est)))), w).
Proof.
  intros Hlen Hf Ht.
  split; exact (my_metric_binary _ _ None None w Hlen Hf Ht).
Qed.

Lemma default_cost_weights_witness :
  (length [false; false; true; true; false] = length [false; true; false; true; true]
   /\ false ∈ [false; false; true; true; false] ++ [false; true; false; true; true]
   /\ true ∈ [false; false; true; true; false] ++ [false; true; false; true; true])
  /\ my_scorer [false; false; true; true; false] [false; true; false; true; true]
       None None tt = (Ok 21%float, tt).
Proof.
  assert (Hlen : length [false; false; true; true; false]
                 = length [false; true; false; true; true]) by reflexivity.
  assert (Hf : false ∈ [false; false; true; true; false] ++ [false; true; false; true; true])
    by (simpl; left).
  assert (Ht : true ∈ [false; false; true; true; false] ++ [false; true; false; true; true])
    by (simpl; do 2 right; left).
  split; [exact (conj Hlen (conj Hf Ht))|].
  exact (proj2 (default_cost_weights (W := unit) (val := float)
                  [false; false; true; true; false] [false; true; false; true; true]
                  tt Hlen Hf Ht)).
Defined.

(** C9 as stated fails on label vectors with a single label, here a
    perfect prediction of two positives: the default call raises where the
    statement promises 10.0 * 0 + 1.0 * 0. *)
Lemma default_cost_weights_all_positive :
  length [true; true] = length [true; true]
  /\ false_positive_count [true; true] [true; true] = 0
  /\ false_negative_count [true; true] [true; true] = 0
  /\ my_metric (W := unit) (val := float) [true; true] [true; true] None None tt
     = (Raise ValueError, tt)
  /\ my_scorer (W := unit) (val := float) [true; true] [true; true] None None tt
     = (Raise ValueError, tt)
  /\ my_scorer (W := unit) (val := float) [true; true] [true; true] None None tt
     ≠ (Ok (num_add (num_mul 10%float (of_int64 0)) (num_mul 1%float (of_int64 0))), tt).
Proof.
  split; [reflexivity|]. split; [reflexivity|]. split; [reflexivity|].
  split; [vm_compute; reflexivity|]. split; [vm_compute; reflexivity|].
  vm_compute. discriminate.
Qed.

(** C5. The scorers are stateless and deterministic: run in any two states
    of the interpreter on equal arguments they give equal results (a value
    or an exception), and they leave the state as they found it. *)
Theorem scorers_stateless {W val} {num : PyNum val}
  (y_test y_est : list bool) (cost_fp cost_fn : option val) (w1 w2 : W) :
  ((my_metric y_test y_est cost_fp cost_fn w1).1
     = (my_metric y_test y_est cost_fp cost_fn w2).1
   /\ (my_metric y_test y_est cost_fp cost_fn w1).2 = w1)
  /\ ((my_scorer y_test y_est cost_fp cost_fn w1).1
       = (my_scorer y_test y_est cost_fp cost_fn w2).1
     /\ (my_scorer y_test y_est cost_fp cost_fn w1).2 = w1).
Proof.
  change (my_scorer y_test y_est cost_fp cost_fn)
    with (my_metric (W := W) y_test y_est cost_fp cost_fn).
  assert (Hpure : forall w : W,
            exists r, my_metric y_test y_est cost_fp cost_fn w = (r, w)).
  { intros w. unfold my_metric, mbind, nb_bind, lib, mret, nb_ret.
    destruct (confusion_matrix y_test y_est) as [cm|e]; [|eauto].
    destruct (unpack4 (ravel cm)) as [[[[tn fp] fn] tp]|e]; eauto. }
  assert (Hsame : forall w w' : W,
            (my_metric y_test y_est cost_fp cost_fn w).1
            = (my_metric y_test y_est cost_fp cost_fn w').1).
  { intros w w'. unfold my_metric, mbind, nb_bind, lib, mret, nb_ret.
    destruct (confusion_matrix y_test y_est) as [cm|e]; [|reflexivity].
    destruct (unpack4 (ravel cm)) as [[[[tn fp] fn] tp]|e]; reflexivity. }
  destruct (Hpure w1) as [r Hr].
  repeat split; try apply Hsame; rewrite Hr; reflexivity.
Qed.

(** ** Running a cell

    [run_nb] unfolds the monad and the file operations, so that a cell
    applied to a world reduces as far as the outcomes of its library calls
    are known. *)
Ltac run_nb :=
  cbv [mbind nb_bind mret nb_ret lib finally with_open
       open_rb open_wb file_read file_write file_close print set_files
       files stdout].


Lemma bind_ok {W A B} (m : nb W A) (k : A -> nb W B) (w w' : W) (a : A) :
  m w = (Ok a, w') -> (m ≫= k) w = k a w'.
Proof. intros Hm. unfold mbind, nb_bind. rewrite Hm. reflexivity. Qed.

(** ** The loan cost cell *)

Lemma wrap64_small (z : Z) : - 2 ^ 63 <= z < 2 ^ 63 -> wrap64 z = z.
Proof. intros Hz. unfold wrap64. rewrite Z.mod_small; lia. Qed.

Lemma false_positive_count_bounds (y_test y_est : list bool) :
  0 <= false_positive_count y_test y_est <= Z.of_nat (length y_test).
Proof.
  unfold false_positive_count. split; [lia|].
  apply inj_le. etransitivity; [apply length_filter|]. rewrite length_seq. done.
Qed.

Lemma false_negative_count_bounds (y_test y_est : list bool) :
  0 <= false_negative_count y_test y_est <= Z.of_nat (length y_test).
Proof.
  unfold false_negative_count. split; [lia|].
  apply inj_le. etransitivity; [apply length_filter|]. rewrite length_seq. done.
Qed.

(** C6 (as amended). The loan cost cell computes its cost from the
    predictions and the held-out labels: when the confusion matrix of
    [y_test] against [preds] is the 2 x 2 one (both labels occur) and the
    vectors are of a length a machine can hold, the cell prints
    fp*10 + fn*150 for the false-positive and false-negative counts of
    [y_test] against [preds], and binds [cost] to it. *)
Theorem loan_cost_printed {X model score} {est : Estimators X bool model score}
  (X_train : X) (y_train : list bool) (X_test : X) (y_test : list bool)
  (clf : model) (preds : list bool) (w : world) :
  fit_random_forest 2 X_train y_train = Ok clf ->
  predict clf X_test = Ok preds ->
  length y_test = length preds ->
  false ∈ y_test ++ preds -> true ∈ y_test ++ preds ->
  Z.of_nat (length y_test) < 2 ^ 55 ->
  loan_cost_cell X_train y_train X_test y_test w =
  (Ok (false_positive_count y_test preds * 10 + false_negative_count y_test preds * 150),
   {| files := files w;
      stdout := stdout w ++
        [pretty (false_positive_count y_test preds * 10
                 + false_negative_count y_test preds * 150)] |}).
Proof.
  intros Hfit Hpred Hlen Hf Ht Hsize.
  unfold loan_cost_cell. run_nb.
  rewrite Hfit, Hpred, (confusion_matrix_binary _ _ Hlen Hf Ht).
  cbn [ravel concat app unpack4].
  rewrite !cell_count_positions by exact Hlen.
  fold (false_positive_count y_test preds) (false_negative_count y_test preds).
  pose proof (false_positive_count_bounds y_test preds) as Hfp.
  pose proof (false_negative_count_bounds y_test preds) as Hfn.
  assert (H55 : 2 ^ 63 = 2 ^ 55 * 256) by reflexivity.
  rewrite (wrap64_small (_ * 10)) by lia.
  rewrite (wrap64_small (_ * 150)) by lia.
  rewrite wrap64_small by lia.
  reflexivity.
Qed.

Lemma loan_cost_printed_witness :
  (fit_random_forest (Estimators := majority_estimators) 2 [5; 7; 9] [true; false; true]
     = Ok true
   /\ predict (Estimators := majority_estimators) true [1; 2; 3; 4] = Ok [true; true; true; true]
   /\ length [true; false; false; true] = length [true; true; true; true]
   /\ false ∈ [true; false; false; true] ++ [true; true; true; true]
   /\ true ∈ [true; false; false; true] ++ [true; true; true; true]
   /\ Z.of_nat (length [true; false; false; true]) < 2 ^ 55)
  /\ loan_cost_cell (est := majority_estimators) [5; 7; 9] [true; false; true] [1; 2; 3; 4]
       [true; false; false; true] (World ∅ [])
     = (Ok 20, World ∅ ["20"]).
Proof.
  assert (H3 : length [true; false; false; true] = length [true; true; true; true])
    by reflexivity.
  assert (H4 : false ∈ [true; false; false; true] ++ [true; true; true; true])
    by (simpl; right; left).
  assert (H5 : true ∈ [true; false; false; true] ++ [true; true; true; true])
    by (simpl; left).
  assert (H6 : Z.of_nat (length [true; false; false; true]) < 2 ^ 55) by reflexivity.
  split; [repeat split; assumption|].
  exact (loan_cost_printed (est := majority_estimators)
           [5; 7; 9] [true; false; true] [1; 2; 3; 4] [true; false; false; true]
           true [true; true; true; true] (World ∅ [])
           eq_refl eq_refl H3 H4 H5 H6).
Defined.

(** C6 as stated fails when a single label occurs in the held-out labels
    and the predictions: the confusion matrix is then 1 x 1, the cell
    raises [ValueError] at the unpacking and prints nothing, where the
    statement promises the printed cost 0*10 + 0*150. *)
Lemma loan_cost_single_class :
  fit_random_forest (Estimators := majority_estimators) 2 [5; 7] [false; false] = Ok false
  /\ predict (Estimators := majority_estimators) false [1; 2] = Ok [false; false]
  /\ false_positive_count [false; false] [false; false] = 0
  /\ false_negative_count [false; false] [false; false] = 0
  /\ loan_cost_cell (est := majority_estimators) [5; 7] [false; false] [1; 2]
       [false; false] (World ∅ [])
     = (Raise ValueError, World ∅ []).
Proof. repeat split; vm_compute; reflexivity. Qed.

(** The run recorded in notebook 01 (accuracy 0.775, precision 24/34, F1
    48/93 on 200 held-out samples) has 131 true negatives, 10 false
    positives, 35 false negatives and 24 true positives; the cell printed
    5350. *)
Example loan_cost_recorded_run :
  let y_test := replicate 141 false ++ replicate 59 true in
  let preds := replicate 131 false ++ replicate 10 true
               ++ replicate 35 false ++ replicate 24 true in
  confusion_matrix y_test preds = Ok [[131; 10]; [35; 24]]
  /\ pretty (wrap64 (wrap64 (10 * 10) + wrap64 (35 * 150))) = "5350".
Proof. split; vm_compute; reflexivity. Qed.

(** ** Persistence *)

Section PersistenceFacts.
Context {X Y model score : Type} {pk : Pickle model} {est : Estimators X Y model score}.

(** Writing a model leaves exactly its pickle in the file. *)
Lemma save_model_ok (m : model) (data : list Byte.byte) (w : world) :
  dumps m = Ok data ->
  save_model m w = (Ok (), set_files (insert "model.pkl" data) w).
Proof.
  intros Hd. destruct w as [fs out]. unfold save_model, pickle_dump. run_nb.
  rewrite Hd, alter_insert_eq, app_nil_l. reflexivity.
Qed.

(** Reading returns what [loads] makes of the file, and changes nothing. *)
Lemma load_model_ok (data : list Byte.byte) (w : world) :
  files w !! "model.pkl" = Some data ->
  load_model w = (loads data, w).
Proof.
  destruct w as [fs out]. cbn [files]. intros Hf.
  unfold load_model, pickle_load. run_nb. rewrite Hf. run_nb. rewrite Hf.
  destruct (loads data); reflexivity.
Qed.

Lemma files_after_save (data : list Byte.byte) (w : world) :
  files (set_files (insert "model.pkl" data) w) !! "model.pkl" = Some data.
Proof. destruct w. apply lookup_insert_eq. Qed.

End PersistenceFacts.

(** C2. Given pickle's contract on the models, dumping a fitted classifier
    to model.pkl and loading it again gives back the same classifier [m],
    whatever the files held before; so the deployment cell binds
    [clf_from_file] to [m] and its predictions are those of [m], for every
    test matrix. *)
Theorem pickle_round_trip {X Y model score}
  {pk : Pickle model} {est : Estimators X Y model score}
  (m : model) (w : world) :
  pickle_contract model ->
  exists data,
    dumps m = Ok data
    /\ (save_model m ≫= fun _ => load_model) w
       = (Ok m, set_files (insert "model.pkl" data) w)
    /\ forall (X_train : X) (y_train : list Y) (X_test : X),
         fit_random_forest 42 X_train y_train = Ok m ->
         deployment_cell X_train y_train X_test w
         = (match predict m X_test with
            | Ok preds => Ok (m, m, preds)
            | Raise e => Raise e
            end, set_files (insert "model.pkl" data) w).
Proof.
  intros Hpickle. destruct (Hpickle m) as (data & Hd & Hl).
  exists data. split; [exact Hd|].
  assert (Hround : (save_model m ≫= fun _ => load_model) w
                   = (Ok m, set_files (insert "model.pkl" data) w)).
  { rewrite (bind_ok _ _ _ _ _ (save_model_ok m data w Hd)).
    rewrite (load_model_ok data) by apply files_after_save.
    rewrite Hl. reflexivity. }
  split; [exact Hround|].
  intros X_train y_train X_test Hfit.
  unfold deployment_cell.
  rewrite (bind_ok _ _ w w m) by (unfold lib; rewrite Hfit; reflexivity).
  rewrite (bind_ok _ _ _ _ _ (save_model_ok m data w Hd)).
  erewrite bind_ok
    by (rewrite (load_model_ok data) by apply files_after_save; rewrite Hl; reflexivity).
  run_nb. destruct (predict m X_test); reflexivity.
Qed.

Lemma majority_pickle_contract : pickle_contract (pk := majority_pickle) bool.
Proof. intros [|]; eexists; split; reflexivity. Qed.

Lemma pickle_round_trip_witness :
  pickle_contract (pk := majority_pickle) bool
  /\ exists data,
       dumps (Pickle := majority_pickle) true = Ok data
       /\ (save_model (pk := majority_pickle) true
             ≫= fun _ => load_model (pk := majority_pickle)) (World ∅ [])
          = (Ok true, set_files (insert "model.pkl" data) (World ∅ []))
       /\ forall (X_train : list Z) (y_train : list bool) (X_test : list Z),
            fit_random_forest (Estimators := majority_estimators) 42 X_train y_train = Ok true ->
            deployment_cell (pk := majority_pickle) (est := majority_estimators)
              X_train y_train X_test (World ∅ [])
            = (match predict (Estimators := majority_estimators) true X_test with
               | Ok preds => Ok (true, true, preds)
               | Raise e => Raise e
               end, set_files (insert "model.pkl" data) (World ∅ [])).
Proof.
  split; [exact majority_pickle_contract|].
  exact (pickle_round_trip (pk := majority_pickle) (est := majority_estimators)
           true (World ∅ []) majority_pickle_contract).
Defined.

(** C3. In the champion/challenger cell the model written back to
    model.pkl is the champion, the model loaded from that file, for every
    pair of F1 scores: the scores are printed and play no part in what is
    written. *)
Theorem champion_written_back {X Y model score}
  {pk : Pickle model} {est : Estimators X Y model score}
  (X_train : X) (y_train : list Y) (X_test : X) (y_test : list Y)
  (champion challenger : model) (old data : list Byte.byte)
  (champion_preds challenger_preds : list Y)
  (champion_f1 challenger_f1 : score) (w : world) :
  files w !! "model.pkl" = Some old ->
  loads old = Ok champion ->
  fit_gaussian_nb X_train y_train = Ok challenger ->
  predict champion X_test = Ok champion_preds ->
  f1_score y_test champion_preds = Ok champion_f1 ->
  predict challenger X_test = Ok challenger_preds ->
  f1_score y_test challenger_preds = Ok challenger_f1 ->
  dumps champion = Ok data ->
  champion_challenger_cell X_train y_train X_test y_test w =
  (Ok (champion, challenger),
   {| files := <["model.pkl" := data]> (files w);
      stdout := stdout w ++ [str_score champion_f1; str_score challenger_f1] |}).
Proof.
  destruct w as [fs out]. cbn [files stdout].
  intros Hold Hload Hfit Hp1 Hs1 Hp2 Hs2 Hdump.
  unfold champion_challenger_cell, pickle_load, pickle_dump.
  run_nb. rewrite Hold. run_nb. rewrite Hold, Hload, Hfit, Hp1, Hs1.
  run_nb. rewrite Hp2, Hs2. run_nb. rewrite Hdump.
  rewrite alter_insert_eq, app_nil_l, <- app_assoc. reflexivity.
Qed.

Lemma champion_written_back_witness :
  (files (World {[ "model.pkl" := [Byte.x01] ]} []) !! "model.pkl" = Some [Byte.x01]
   /\ loads (Pickle := majority_pickle) [Byte.x01] = Ok true
   /\ fit_gaussian_nb (Estimators := majority_estimators) [1; 2; 3] [false; false; true]
      = Ok false
   /\ predict (Estimators := majority_estimators) true [4; 5] = Ok [true; true]
   /\ f1_score (Estimators := majority_estimators) [false; false] [true; true] = Ok 0%nat
   /\ predict (Estimators := majority_estimators) false [4; 5] = Ok [false; false]
   /\ f1_score (Estimators := majority_estimators) [false; false] [false; false] = Ok 2%nat
   /\ dumps (Pickle := majority_pickle) true = Ok [Byte.x01])
  /\ champion_challenger_cell (pk := majority_pickle) (est := majority_estimators)
       [1; 2; 3] [false; false; true] [4; 5] [false; false]
       (World {[ "model.pkl" := [Byte.x01] ]} [])
     = (Ok (true, false),
        {| files := <["model.pkl" := [Byte.x01]]> {[ "model.pkl" := [Byte.x01] ]};
           stdout := [] ++ ["0"; "2"] |}).
Proof.
  assert (Hold : files (World {[ "model.pkl" := [Byte.x01] ]} []) !! "model.pkl"
                 = Some [Byte.x01]) by reflexivity.
  split; [repeat split; try reflexivity; exact Hold|].
  exact (champion_written_back (pk := majority_pickle) (est := majority_estimators)
           [1; 2; 3] [false; false; true] [4; 5] [false; false]
           true false [Byte.x01] [Byte.x01] [true; true] [false; false] 0%nat 2%nat
           (World {[ "model.pkl" := [Byte.x01] ]} [])
           Hold eq_refl eq_refl eq_refl eq_refl eq_refl eq_refl eq_refl).
Defined.

(** ** Grid search *)

Section GridSearchFacts.
Context {V score : Type}.
Variable mean_test_score : gmap string V -> score.
Variable better : score -> score -> bool.
Variable search_failure : list (gmap string V) -> option exn.

(** A candidate assigns to each name of the grid one of its values, and
    to no other name. *)
Lemma product_assigns (items : list (string * list V)) (c : gmap string V) :
  NoDup items.*1 ->
  c ∈ product items ->
  (forall name values, (name, values) ∈ items ->
     exists v, c !! name = Some v /\ v ∈ values)
  /\ (forall name, is_Some (c !! name) <-> name ∈ items.*1).
Proof.
  revert c. induction items as [|[name values] rest IH]; intros c Hnd Hc.
  - cbn [product] in Hc. apply list_elem_of_singleton in Hc as ->. split.
    + intros name values Hin. inversion Hin.
    + intros name. rewrite lookup_empty. split; [intros [? ?]; discriminate|].
      intros Hin. inversion Hin.
  - cbn [product] in Hc. cbn [fmap list_fmap fst] in Hnd.
    apply NoDup_cons in Hnd as [Hfresh Hnd].
    apply list_elem_of_bind in Hc as (v & Hc & Hv).
    apply list_elem_of_bind in Hc as (p & Hc & Hp).
    apply list_elem_of_singleton in Hc as ->.
    destruct (IH p Hnd Hp) as [IHval IHdom]. split.
    + intros name' values' Hin. apply elem_of_cons in Hin as [Heq|Hin].
      * injection Heq as -> ->. exists v. split; [apply lookup_insert_eq|exact Hv].
      * assert (name ≠ name').
        { intros ->. apply Hfresh. apply list_elem_of_fmap.
          exists (name', values'). split; [reflexivity|exact Hin]. }
        rewrite lookup_insert_ne by assumption. apply (IHval _ _ Hin).
    + intros name'. cbn [fmap list_fmap fst]. rewrite elem_of_cons.
      destruct (decide (name = name')) as [->|Hne].
      * rewrite lookup_insert_eq. split; [left; reflexivity|eauto].
      * rewrite lookup_insert_ne by assumption. rewrite IHdom.
        split; [right; assumption|]. intros [Heq|Hin]; [congruence|assumption].
Qed.

Lemma product_nonempty (items : list (string * list V)) :
  Forall (fun item => length item.2 ≠ 0%nat) items -> product items ≠ [].
Proof.
  induction 1 as [|[name values] rest Hne _ IH]; [discriminate|].
  cbn [product]. cbn [snd] in Hne.
  destruct values as [|v values]; [exfalso; apply Hne; reflexivity|].
  destruct (product rest) as [|p ps]; [congruence|]. csimpl. discriminate.
Qed.

Lemma sorted_items_elem (param_grid : gmap string (list V)) name values :
  (name, values) ∈ sorted_items param_grid <-> param_grid !! name = Some values.
Proof.
  unfold sorted_items. rewrite merge_sort_Permutation. apply elem_of_map_to_list.
Qed.

Lemma sorted_items_NoDup (param_grid : gmap string (list V)) :
  NoDup (sorted_items param_grid).*1.
Proof.
  unfold sorted_items. rewrite merge_sort_Permutation. apply NoDup_fst_map_to_list.
Qed.

Lemma best_candidate_elem (c : gmap string V) (cs : list (gmap string V)) :
  best_candidate mean_test_score better c cs ∈ c :: cs.
Proof.
  revert c. induction cs as [|c' cs IH]; intros c; cbn [best_candidate].
  - left.
  - specialize (IH (if better (mean_test_score c') (mean_test_score c) then c' else c)).
    apply elem_of_cons in IH as [->|IH].
    + destruct (better _ _); [right; left|left].
    + right; right; exact IH.
Qed.

Lemma candidate_of_grid (param_grid : gmap string (list V)) (c : gmap string V) :
  c ∈ product (sorted_items param_grid) ->
  dom c = dom param_grid
  /\ forall name values, param_grid !! name = Some values ->
       exists v, c !! name = Some v /\ v ∈ values.
Proof.
  intros Hc.
  destruct (product_assigns _ _ (sorted_items_NoDup param_grid) Hc) as [Hval Hdom].
  split.
  - apply set_eq. intros name. rewrite !elem_of_dom, Hdom, list_elem_of_fmap.
    split.
    + intros ([name' values] & -> & Hin). apply sorted_items_elem in Hin. eauto.
    + intros [values Hl]. exists (name, values).
      split; [reflexivity|apply sorted_items_elem, Hl].
  - intros name values Hl. apply Hval, sorted_items_elem, Hl.
Qed.

End GridSearchFacts.

(** C7. Grid search selects from the supplied grid: whatever the scores,
    a reported [best_params_] has exactly the grid's parameter names and
    gives each of them one of its listed values. A best combination is
    reported as soon as every parameter lists a value and the search
    itself does not fail. *)
Theorem best_params_from_grid {V score}
  (mean_test_score : gmap string V -> score) (better : score -> score -> bool)
  (search_failure : list (gmap string V) -> option exn)
  (param_grid : gmap string (list V)) :
  (forall best_params,
     grid_search_best_params mean_test_score better search_failure param_grid
       = Ok best_params ->
     dom best_params = dom param_grid
     /\ forall name values, param_grid !! name = Some values ->
          exists v, best_params !! name = Some v /\ v ∈ values)
  /\ ((forall name values, param_grid !! name = Some values -> values ≠ []) ->
      search_failure (product (sorted_items param_grid)) = None ->
      exists best_params,
        grid_search_best_params mean_test_score better search_failure param_grid
          = Ok best_params).
Proof.
  unfold grid_search_best_params, ParameterGrid. split.
  - intros best_params Hfit.
    destruct (decide (map_Forall _ param_grid)) as [Hne|Hempty];
      cbn [mbind outcome_bind] in Hfit; [|discriminate].
    destruct (product (sorted_items param_grid)) as [|c cs] eqn:Hprod; [discriminate|].
    destruct (search_failure (c :: cs)); [discriminate|].
    injection Hfit as <-.
    apply candidate_of_grid. rewrite Hprod. apply best_candidate_elem.
  - intros Hne Hsearch.
    rewrite decide_True.
    + cbn [mbind outcome_bind].
      destruct (product (sorted_items param_grid)) as [|c cs] eqn:Hprod.
      * exfalso. revert Hprod. apply product_nonempty.
        apply Forall_forall. intros [name values] Hin. cbn [snd].
        apply sorted_items_elem in Hin. specialize (Hne _ _ Hin).
        destruct values; [congruence|discriminate].
      * rewrite Hsearch. eauto.
    + apply map_Forall_lookup. intros name values Hl. specialize (Hne _ _ Hl).
      destruct values; [congruence|discriminate].
Qed.

(** The grid of the feature-engineering pipeline, scored by the multiplier
    itself: the largest listed value wins. *)
Lemma best_params_from_grid_witness :
  grid_search_best_params (fun c => default 0 (c !! "ft__multiplier"))
    (fun s s' => s' <? s) (fun _ => None) params_ft
  = Ok {[ "ft__multiplier" := 3 ]}
  /\ dom ({[ "ft__multiplier" := 3 ]} : gmap string Z) = dom params_ft
  /\ forall name values, params_ft !! name = Some values ->
       exists v, ({[ "ft__multiplier" := 3 ]} : gmap string Z) !! name = Some v /\ v ∈ values.
Proof.
  assert (Hrun : grid_search_best_params (fun c => default 0 (c !! "ft__multiplier"))
                   (fun s s' => s' <? s) (fun _ => None) params_ft
                 = Ok {[ "ft__multiplier" := 3 ]}) by (vm_compute; reflexivity).
  split; [exact Hrun|].
  exact (proj1 (best_params_from_grid _ _ _ params_ft) _ Hrun).
Defined.

(** The four candidates of the pipeline's grid, in scikit-learn's order. *)
Example params_pipeline_candidates :
  product (sorted_items params_pipeline)
  = [ {[ "clf__n_estimators" := 2; "feature_selection__k" := 10 ]};
      {[ "clf__n_estimators" := 2; "feature_selection__k" := 20 ]};
      {[ "clf__n_estimators" := 5; "feature_selection__k" := 10 ]};
      {[ "clf__n_estimators" := 5; "feature_selection__k" := 20 ]} ].
Proof. vm_compute. reflexivity. Qed.

(** ** featurize *)

Lemma int64_values_CInt (zs : list Z) : int64_values (CInt <$> zs) = Some zs.
Proof.
  induction zs as [|z zs IH]; [reflexivity|].
  cbn [fmap list_fmap int64_values]. fold (fmap CInt zs). rewrite IH. reflexivity.
Qed.

(** On a column of integers with at least one row [np.mean] returns, and
    its value is the library's mean of those integers. *)
Lemma np_mean_int64 {np : Numpy} (zs : list Z) :
  zs ≠ [] -> np_mean (CInt <$> zs) = Ok (mean_int64 zs).
Proof.
  intros Hne. unfold np_mean.
  pose proof (int64_values_CInt zs) as Hvalues.
  destruct zs as [|z zs]; [congruence|].
  cbn [fmap list_fmap] in *. rewrite Hvalues. reflexivity.
Qed.




(** ** more_than_average *)


Section MoreThanAverageFacts.
Context {val : Type} {num : PyNum val} {nd : NdNum val}.


End MoreThanAverageFacts.


Example more_than_average_demo :
  (more_than_average 0%nat None
     {[ 0%nat := NdArray 3 [[1; 60; 3]; [4; 80; 6]; [7; 100; 9]]%float ]}).2
  = {[ 0%nat := NdArray 3 [[1; 60; 3]; [4; 80; 6]; [7; 100; 9]]%float;
       1%nat := NdArray 3 [[1; 0; 3]; [4; 0; 6]; [7; 1; 9]]%float ]}.
Proof. vm_compute. reflexivity. Qed.


(** * Part III: further properties of the notebooks' code *)

(** ** The scorers' errors *)

(** X1. [my_metric] and [my_scorer] raise exactly when the label vectors
    differ in length or fewer than two distinct labels occur in them, and
    the exception is then [ValueError]; nothing else makes them fail. *)
Theorem scorers_raise_iff {W val} {num : PyNum val}
  (y_test y_est : list bool) (cost_fp cost_fn : option val) (w : W) :
  ((length y_test ≠ length y_est
    \/ ~ (false ∈ y_test ++ y_est /\ true ∈ y_test ++ y_est))
   <-> my_metric y_test y_est cost_fp cost_fn w = (Raise ValueError, w))
  /\ ((length y_test ≠ length y_est
       \/ ~ (false ∈ y_test ++ y_est /\ true ∈ y_test ++ y_est))
      <-> my_scorer y_test y_est cost_fp cost_fn w = (Raise ValueError, w))
  /\ (forall e w', my_metric y_test y_est cost_fp cost_fn w = (Raise e, w') ->
        e = ValueError /\ w' = w).
Proof.
  assert (Hiff : (length y_test ≠ length y_est
                  \/ ~ (false ∈ y_test ++ y_est /\ true ∈ y_test ++ y_est))
                 <-> my_metric y_test y_est cost_fp cost_fn w = (Raise ValueError, w)).
  { split.
    - intros [Hlen|Hsingle]; [|apply my_metric_single_label, Hsingle].
      unfold my_metric, confusion_matrix. cbv [mbind nb_bind mret nb_ret lib].
      rewrite decide_False by exact Hlen. reflexivity.
    - intros Hraise.
      destruct (decide (length y_test = length y_est)) as [Hlen|Hlen]; [|left; exact Hlen].
      right. intros [Hf Ht].
      rewrite (my_metric_binary _ _ cost_fp cost_fn w Hlen Hf Ht) in Hraise.
      discriminate. }
  split; [exact Hiff|]. split; [exact Hiff|].
  intros e w' Hraise.
  destruct (decide (length y_test = length y_est)) as [Hlen|Hlen].
  - destruct (decide (false ∈ y_test ++ y_est)) as [Hf|Hf].
    + destruct (decide (true ∈ y_test ++ y_est)) as [Ht|Ht].
      * rewrite (my_metric_binary _ _ cost_fp cost_fn w Hlen Hf Ht) in Hraise.
        discriminate.
      * rewrite (proj1 Hiff) in Hraise by (right; intros [_ ?]; contradiction).
        injection Hraise as <- <-. split; reflexivity.
    + rewrite (proj1 Hiff) in Hraise by (right; intros [? _]; contradiction).
      injection Hraise as <- <-. split; reflexivity.
  - rewrite (proj1 Hiff) in Hraise by (left; exact Hlen).
    injection Hraise as <- <-. split; reflexivity.
Qed.

(** ** The confusion matrix as a partition of the samples *)

Lemma cell_count_cons (t p a b : bool) (y_true y_pred : list bool) :
  cell_count (t :: y_true) (p :: y_pred) a b
  = (if decide ((t, p) = (a, b)) then 1 else 0) + cell_count y_true y_pred a b.
Proof.
  unfold cell_count. cbn [zip zip_with]. rewrite filter_cons.
  destruct (decide ((t, p) = (a, b))); cbn [length]; lia.
Qed.

Lemma cell_count_nonneg (y_true y_pred : list bool) (a b : bool) :
  0 <= cell_count y_true y_pred a b.
Proof. unfold cell_count. lia. Qed.

Lemma cell_count_total (y_true y_pred : list bool) :
  length y_true = length y_pred ->
  cell_count y_true y_pred false false + cell_count y_true y_pred false true
  + cell_count y_true y_pred true false + cell_count y_true y_pred true true
  = Z.of_nat (length y_true).
Proof.
  revert y_pred. induction y_true as [|t y_true IH]; intros [|p y_pred] Hlen;
    simpl in Hlen; try discriminate; [reflexivity|].
  injection Hlen as Hlen. specialize (IH y_pred Hlen).
  rewrite !cell_count_cons. cbn [length]. rewrite Nat2Z.inj_succ.
  destruct t, p; repeat (case_decide; try discriminate; try congruence); lia.
Qed.

Lemma no_errors_iff_equal (y_true y_pred : list bool) :
  length y_true = length y_pred ->
  (cell_count y_true y_pred false true = 0 /\ cell_count y_true y_pred true false = 0)
  <-> y_pred = y_true.
Proof.
  revert y_pred. induction y_true as [|t y_true IH]; intros [|p y_pred] Hlen;
    simpl in Hlen; try discriminate.
  - split; [reflexivity|]. intros _. split; reflexivity.
  - injection Hlen as Hlen. specialize (IH y_pred Hlen).
    rewrite !cell_count_cons.
    pose proof (cell_count_nonneg y_true y_pred false true).
    pose proof (cell_count_nonneg y_true y_pred true false).
    split.
    + intros [H1 H2].
      destruct t, p; repeat (case_decide; try discriminate; try congruence);
        try lia; f_equal; apply IH; split; lia.
    + intros Heq. injection Heq as -> ->.
      destruct (proj2 IH eq_refl) as [H1 H2].
      destruct t; repeat (case_decide; try discriminate; try congruence); split; lia.
Qed.

Lemma sum_bools_mask (preds y_test : list bool) (b : bool) :
  length preds = length y_test ->
  sum_bools (zip_with andb (eq_scalar preds b) (eq_scalar y_test b))
  = cell_count y_test preds b b.
Proof.
  revert y_test. induction preds as [|p preds IH]; intros [|t y_test] Hlen;
    simpl in Hlen; try discriminate; [reflexivity|].
  injection Hlen as Hlen. specialize (IH y_test Hlen).
  rewrite cell_count_cons, <- IH. unfold sum_bools, eq_scalar.
  cbn [fmap list_fmap zip_with]. rewrite filter_cons.
  destruct p, t, b; cbn [Bool.eqb andb];
    repeat (case_decide; try discriminate; try congruence); cbn [length]; lia.
Qed.

Lemma sum_bools_broadcast (b : bool) (xs : list bool) :
  sum_bools (andb b <$> xs) = if b then sum_bools xs else 0.
Proof.
  unfold sum_bools. destruct b.
  - f_equal. f_equal. f_equal. apply list_fmap_id.
  - induction xs as [|x xs IH]; [reflexivity|].
    cbn [fmap list_fmap andb]. rewrite filter_cons_False by discriminate. exact IH.
Qed.

Lemma eq_scalar_true (xs : list bool) : eq_scalar xs true = xs.
Proof.
  unfold eq_scalar. rewrite <- (list_fmap_id xs) at 2.
  apply list_fmap_ext. intros _ [] _; reflexivity.
Qed.

Lemma eq_scalar_false (xs : list bool) : eq_scalar xs false = negb <$> xs.
Proof. unfold eq_scalar. apply list_fmap_ext. intros _ [] _; reflexivity. Qed.

(** X2. The counts taken by hand are the diagonal of the confusion
    matrix: on predictions and labels of equal length, [tp] and [tn] are
    computed, and together with the false positives and false negatives
    they account for every sample. A single prediction is repeated along
    the labels, whatever their number: [tp] is then the number of
    positive labels if the prediction is positive and 0 if not, and [tn]
    likewise. Any other two lengths raise [ValueError]. *)
Theorem accuracy_by_hand_counts (preds y_test : list bool) :
  (length preds = length y_test ->
   exists tp tn,
     true_positives preds y_test = Ok tp
     /\ true_negatives preds y_test = Ok tn
     /\ tp = cell_count y_test preds true true
     /\ tn = cell_count y_test preds false false
     /\ tp + tn + false_positive_count y_test preds + false_negative_count y_test preds
        = Z.of_nat (length y_test))
  /\ (forall p, preds = [p] ->
        true_positives preds y_test = Ok (if p then sum_bools y_test else 0)
        /\ true_negatives preds y_test
           = Ok (if p then 0 else sum_bools (negb <$> y_test)))
  /\ (length preds ≠ length y_test -> length preds ≠ 1%nat ->
      true_positives preds y_test = Raise ValueError
      /\ true_negatives preds y_test = Raise ValueError).
Proof.
  split; [|split].
  - intros Hlen. unfold true_positives, true_negatives, and_elementwise, eq_scalar.
    rewrite !length_fmap.
    rewrite !decide_True by exact Hlen. cbn [mbind outcome_bind].
    eexists _, _. split; [reflexivity|]. split; [reflexivity|].
    fold (eq_scalar preds true) (eq_scalar y_test true)
         (eq_scalar preds false) (eq_scalar y_test false).
    rewrite !sum_bools_mask by exact Hlen.
    split; [reflexivity|]. split; [reflexivity|].
    unfold false_positive_count, false_negative_count.
    rewrite <- !cell_count_positions by (symmetry; exact Hlen).
    pose proof (cell_count_total y_test preds (eq_sym Hlen)). lia.
  - intros p ->. unfold true_positives, true_negatives, and_elementwise.
    rewrite eq_scalar_true, !eq_scalar_false, eq_scalar_true.
    cbn [fmap list_fmap]. rewrite !length_fmap. cbn [length].
    destruct (decide (1%nat = length y_test)) as [Hone|Hmore];
      cbn [mbind outcome_bind].
    + destruct y_test as [|t [|t' y_test]]; try discriminate.
      destruct p, t; split; reflexivity.
    + rewrite !sum_bools_broadcast. destruct p; split; reflexivity.
  - intros Hlen Hone. unfold true_positives, true_negatives, and_elementwise, eq_scalar.
    rewrite !length_fmap. rewrite !decide_False by exact Hlen.
    destruct preds as [|p [|p' preds]]; [| |]; cbn [length] in Hone;
      try congruence; split; reflexivity.
Qed.

(** The recorded run: 24 true positives and 131 true negatives out of
    200, the printed accuracy 0.775. *)
Lemma accuracy_by_hand_counts_witness :
  let y_test := replicate 141 false ++ replicate 59 true in
  let preds := replicate 131 false ++ replicate 10 true
               ++ replicate 35 false ++ replicate 24 true in
  true_positives preds y_test = Ok 24 /\ true_negatives preds y_test = Ok 131.
Proof.
  cbv zeta.
  destruct (proj1 (accuracy_by_hand_counts
                     (replicate 131 false ++ replicate 10 true
                      ++ replicate 35 false ++ replicate 24 true)
                     (replicate 141 false ++ replicate 59 true)) eq_refl)
    as (tp & tn & Htp & Htn & -> & -> & _).
  split; [exact Htp|exact Htn].
Defined.

(** ** The loan cost as a measure of the errors *)

Lemma loan_cost_cell_value {X model score} {est : Estimators X bool model score}
  (X_train : X) (y_train : list bool) (X_test : X) (y_test : list bool)
  (clf : model) (preds : list bool) (w : world) :
  fit_random_forest 2 X_train y_train = Ok clf ->
  predict clf X_test = Ok preds ->
  length y_test = length preds ->
  false ∈ y_test ++ preds -> true ∈ y_test ++ preds ->
  Z.of_nat (length y_test) < 2 ^ 55 ->
  loan_cost_cell X_train y_train X_test y_test w =
  (Ok (cell_count y_test preds false true * 10 + cell_count y_test preds true false * 150),
   {| files := files w;
      stdout := stdout w ++
        [pretty (cell_count y_test preds false true * 10
                 + cell_count y_test preds true false * 150)] |}).
Proof.
  intros Hfit Hpred Hlen Hf Ht Hsize.
  unfold loan_cost_cell. run_nb.
  rewrite Hfit, Hpred, (confusion_matrix_binary _ _ Hlen Hf Ht).
  cbn [ravel concat app unpack4].
  pose proof (cell_count_total y_test preds Hlen) as Htotal.
  pose proof (cell_count_nonneg y_test preds false false).
  pose proof (cell_count_nonneg y_test preds false true).
  pose proof (cell_count_nonneg y_test preds true false).
  pose proof (cell_count_nonneg y_test preds true true).
  assert (H55 : 2 ^ 63 = 2 ^ 55 * 256) by reflexivity.
  rewrite (wrap64_small (_ * 10)) by lia.
  rewrite (wrap64_small (_ * 150)) by lia.
  rewrite wrap64_small by lia.
  reflexivity.
Qed.

(** X3. The loan cost measures the errors: whenever the cell prints a
    cost (2 x 2 confusion matrix, vectors of a length a machine can hold),
    the cost lies between 0 and 150 times the number of held-out samples,
    and it is 0 exactly when every prediction equals its label. *)
Theorem loan_cost_zero_iff_perfect {X model score}
  {est : Estimators X bool model score}
  (X_train : X) (y_train : list bool) (X_test : X) (y_test : list bool)
  (clf : model) (preds : list bool) (w : world) :
  fit_random_forest 2 X_train y_train = Ok clf ->
  predict clf X_test = Ok preds ->
  length y_test = length preds ->
  false ∈ y_test ++ preds -> true ∈ y_test ++ preds ->
  Z.of_nat (length y_test) < 2 ^ 55 ->
  exists cost,
    loan_cost_cell X_train y_train X_test y_test w
    = (Ok cost, {| files := files w; stdout := stdout w ++ [pretty cost] |})
    /\ 0 <= cost <= 150 * Z.of_nat (length y_test)
    /\ (cost = 0 <-> preds = y_test).
Proof.
  intros Hfit Hpred Hlen Hf Ht Hsize.
  eexists. split;
    [apply (loan_cost_cell_value _ _ _ _ clf preds w Hfit Hpred Hlen Hf Ht Hsize)|].
  pose proof (cell_count_total y_test preds Hlen) as Htotal.
  pose proof (cell_count_nonneg y_test preds false false).
  pose proof (cell_count_nonneg y_test preds false true).
  pose proof (cell_count_nonneg y_test preds true false).
  pose proof (cell_count_nonneg y_test preds true true).
  split; [lia|].
  rewrite <- (no_errors_iff_equal y_test preds Hlen). lia.
Qed.

Lemma loan_cost_zero_iff_perfect_witness :
  exists cost,
    loan_cost_cell (est := majority_estimators) [5; 7; 9] [true; false; true] [1; 2; 3; 4]
      [true; false; false; true] (World ∅ [])
    = (Ok cost, {| files := ∅; stdout := [] ++ [pretty cost] |})
    /\ 0 <= cost <= 150 * Z.of_nat (length [true; false; false; true])
    /\ (cost = 0 <-> [true; true; true; true] = [true; false; false; true]).
Proof.
  apply (loan_cost_zero_iff_perfect (est := majority_estimators)
           [5; 7; 9] [true; false; true] [1; 2; 3; 4] [true; false; false; true]
           true [true; true; true; true] (World ∅ [])).
  - reflexivity.
  - reflexivity.
  - reflexivity.
  - simpl. right; left.
  - simpl. left.
  - reflexivity.
Defined.

(** ** Deployment followed by the champion/challenger test *)

Lemma champion_cell_run {X Y model score}
  {pk : Pickle model} {est : Estimators X Y model score}
  (X_train : X) (y_train : list Y) (X_test : X) (y_test : list Y)
  (champion challenger : model) (old data : list Byte.byte)
  (champion_preds challenger_preds : list Y)
  (champion_f1 challenger_f1 : score) (w : world) :
  files w !! "model.pkl" = Some old ->
  loads old = Ok champion ->
  fit_gaussian_nb X_train y_train = Ok challenger ->
  predict champion X_test = Ok champion_preds ->
  f1_score y_test champion_preds = Ok champion_f1 ->
  predict challenger X_test = Ok challenger_preds ->
  f1_score y_test challenger_preds = Ok challenger_f1 ->
  dumps champion = Ok data ->
  champion_challenger_cell X_train y_train X_test y_test w =
  (Ok (champion, challenger),
   {| files := <["model.pkl" := data]> (files w);
      stdout := stdout w ++ [str_score champion_f1; str_score challenger_f1] |}).
Proof.
  destruct w as [fs out]. cbn [files stdout].
  intros Hold Hload Hfit Hp1 Hs1 Hp2 Hs2 Hdump.
  unfold champion_challenger_cell, pickle_load, pickle_dump.
  run_nb. rewrite Hold. run_nb. rewrite Hold, Hload, Hfit, Hp1, Hs1.
  run_nb. rewrite Hp2, Hs2. run_nb. rewrite Hdump.
  rewrite alter_insert_eq, app_nil_l, <- app_assoc. reflexivity.
Qed.

Lemma deployment_cell_run {X Y model score}
  {pk : Pickle model} {est : Estimators X Y model score}
  (X_train : X) (y_train : list Y) (X_test : X)
  (clf : model) (data : list Byte.byte) (preds : list Y) (w : world) :
  fit_random_forest 42 X_train y_train = Ok clf ->
  dumps clf = Ok data -> loads data = Ok clf ->
  predict clf X_test = Ok preds ->
  deployment_cell X_train y_train X_test w
  = (Ok (clf, clf, preds), set_files (insert "model.pkl" data) w).
Proof.
  intros Hfit Hd Hl Hp. unfold deployment_cell.
  rewrite (bind_ok _ _ w w clf) by (unfold lib; rewrite Hfit; reflexivity).
  rewrite (bind_ok _ _ _ _ _ (save_model_ok clf data w Hd)).
  erewrite bind_ok
    by (rewrite (load_model_ok data) by apply files_after_save; rewrite Hl; reflexivity).
  run_nb. rewrite Hp. reflexivity.
Qed.

(** X4. The model in production survives the champion/challenger test:
    given pickle's contract, running the deployment cell and then the
    champion/challenger cell makes the champion the very classifier that
    was deployed, prints the two scores, and leaves model.pkl holding that
    classifier again, whatever the two scores are and whatever the file
    held at the start; every other file is untouched. *)
Theorem production_model_survives {X Y model score}
  {pk : Pickle model} {est : Estimators X Y model score}
  (X_train : X) (y_train : list Y) (X_test : X) (y_test : list Y)
  (clf challenger : model) (preds challenger_preds : list Y)
  (champion_f1 challenger_f1 : score) (w : world) :
  pickle_contract model ->
  fit_random_forest 42 X_train y_train = Ok clf ->
  predict clf X_test = Ok preds ->
  fit_gaussian_nb X_train y_train = Ok challenger ->
  f1_score y_test preds = Ok champion_f1 ->
  predict challenger X_test = Ok challenger_preds ->
  f1_score y_test challenger_preds = Ok challenger_f1 ->
  exists w',
    (deployment_cell X_train y_train X_test
       ≫= fun _ => champion_challenger_cell X_train y_train X_test y_test) w
    = (Ok (clf, challenger), w')
    /\ load_model w' = (Ok clf, w')
    /\ stdout w' = stdout w ++ [str_score champion_f1; str_score challenger_f1]
    /\ forall path, path ≠ "model.pkl" -> files w' !! path = files w !! path.
Proof.
  intros Hpickle Hfit Hp Hnb Hs1 Hp2 Hs2.
  destruct (Hpickle clf) as (data & Hd & Hl).
  eexists. split; [|split; [|split]].
  - rewrite (bind_ok _ _ _ _ _
               (deployment_cell_run X_train y_train X_test clf data preds w Hfit Hd Hl Hp)).
    apply (champion_cell_run X_train y_train X_test y_test clf challenger data data
             preds challenger_preds champion_f1 challenger_f1);
      try assumption.
    apply files_after_save.
  - rewrite (load_model_ok data) by (cbn [files]; apply lookup_insert_eq).
    rewrite Hl. reflexivity.
  - destruct w; reflexivity.
  - intros path Hpath. destruct w as [fs out]. cbn [files set_files].
    rewrite !lookup_insert_ne by congruence. reflexivity.
Qed.

Lemma production_model_survives_witness :
  exists w',
    (deployment_cell (pk := majority_pickle) (est := majority_estimators)
       [1; 2; 3] [true; true; false] [4; 5]
       ≫= fun _ => champion_challenger_cell (pk := majority_pickle)
                     (est := majority_estimators)
                     [1; 2; 3] [true; true; false] [4; 5] [false; true]) (World ∅ [])
    = (Ok (true, true), w')
    /\ load_model (pk := majority_pickle) w' = (Ok true, w')
    /\ stdout w' = [] ++ ["1"; "1"]
    /\ forall path, path ≠ "model.pkl" ->
         files w' !! path = (∅ : gmap string (list Byte.byte)) !! path.
Proof.
  apply (production_model_survives (pk := majority_pickle) (est := majority_estimators)
           [1; 2; 3] [true; true; false] [4; 5] [false; true]
           true true [true; true] [true; true] 1%nat 1%nat (World ∅ [])
           majority_pickle_contract); reflexivity.
Defined.

(** ** more_than_average on an array without a column 1 *)

(** X5. On an array with fewer than two columns [more_than_average]
    raises [IndexError]: there is no column 1 to read. The input and every
    other array are as before; only the copy, which nothing refers to, has
    been made. *)
Theorem more_than_average_too_narrow {val} {num : PyNum val} {nd : NdNum val}
  (heap : gmap nat (ndarray val)) (X : nat) (a : ndarray val)
  (multiplier : option val) :
  heap !! X = Some a -> (ncols a < 2)%nat ->
  exists heap',
    more_than_average X multiplier heap = (Raise IndexError, heap')
    /\ forall x b, heap !! x = Some b -> heap' !! x = Some b.
Proof.
  intros HX Hcols.
  assert (HZ : heap !! fresh (dom heap) = None) by (apply not_elem_of_dom, is_fresh).
  exists (<[fresh (dom heap) := a]> heap). split.
  - unfold more_than_average, ndarray_copy, get_column.
    cbv [mbind nb_bind mret nb_ret]. rewrite HX.
    cbv beta iota zeta. rewrite lookup_insert_eq.
    rewrite decide_False by lia. reflexivity.
  - intros x b Hx. rewrite lookup_insert_ne by congruence. exact Hx.
Qed.

Lemma more_than_average_too_narrow_witness :
  exists heap',
    more_than_average 0%nat None
      ({[ 0%nat := NdArray 1 [[1]; [4]; [7]]%float ]} : gmap nat (ndarray float))
    = (Raise IndexError, heap')
    /\ forall x b,
         ({[ 0%nat := NdArray 1 [[1]; [4]; [7]]%float ]} : gmap nat (ndarray float)) !! x
           = Some b ->
         heap' !! x = Some b.
Proof.
  apply (more_than_average_too_narrow (val := float)
           {[ 0%nat := NdArray 1 [[1]; [4]; [7]]%float ]} 0%nat
           (NdArray 1 [[1]; [4]; [7]]%float) None).
  - reflexivity.
  - cbn. lia.
Defined.

(** ** featurize: failures, the empty table, bounds *)

Lemma featurize_run {W} {np : Numpy} (df : gmap string (list cell))
  (ports packets durations : list cell) (average_packet average_duration : float)
  (w : W) :
  df !! "destination_port" = Some ports ->
  df !! "packet_count" = Some packets ->
  df !! "duration" = Some durations ->
  np_mean packets = Ok average_packet ->
  np_mean durations = Ok average_duration ->
  featurize df w
  = (Ok (<["average_duration" := VFloat average_duration]>
         (<["average_packet" := VFloat average_packet]>
          {[ "unique_ports" := VInt (len_set ports) ]})), w).
Proof.
  intros Hports Hpackets Hdurations Hp Hd.
  unfold featurize, getitem. cbv [mbind nb_bind mret nb_ret lib].
  rewrite Hports, Hpackets, Hp, Hdurations, Hd. reflexivity.
Qed.

Lemma np_mean_CInt {np : Numpy} (zs : list Z) :
  np_mean (CInt <$> zs) = Ok (match zs with [] => nan | _ :: _ => mean_int64 zs end).
Proof.
  destruct zs as [|z zs]; [reflexivity|].
  apply np_mean_int64. discriminate.
Qed.


Example featurize_missing_column :
  featurize (W := unit) (np := pandas_mean)
    {[ "destination_port" := [CStr "N17023"]; "packet_count" := [CInt 1] ]} tt
  = (Raise KeyError, tt).
Proof. vm_compute. reflexivity. Qed.

(** X7. On a table that has the three columns but no row, [featurize]
    does not fail: it reports 0 unique ports and [nan] for both
    averages. *)
Theorem featurize_empty_table {W} {np : Numpy} (df : gmap string (list cell)) (w : W) :
  df !! "destination_port" = Some [] ->
  df !! "packet_count" = Some [] ->
  df !! "duration" = Some [] ->
  exists features,
    featurize df w = (Ok features, w)
    /\ features !! "unique_ports" = Some (VInt 0)
    /\ features !! "average_packet" = Some (VFloat nan)
    /\ features !! "average_duration" = Some (VFloat nan).
Proof.
  intros Hports Hpackets Hdurations.
  eexists. split;
    [apply (featurize_run df [] [] [] nan nan w Hports Hpackets Hdurations);
     reflexivity|].
  split; [|split].
  - rewrite !lookup_insert_ne by discriminate. rewrite lookup_singleton_eq. reflexivity.
  - rewrite lookup_insert_ne by discriminate. apply lookup_insert_eq.
  - apply lookup_insert_eq.
Qed.

Lemma featurize_empty_table_witness :
  exists features,
    featurize (np := pandas_mean)
      {[ "destination_port" := []; "packet_count" := []; "duration" := [];
         "protocol" := [] ]} tt
    = (Ok features, tt)
    /\ features !! "unique_ports" = Some (VInt 0)
    /\ features !! "average_packet" = Some (VFloat nan)
    /\ features !! "average_duration" = Some (VFloat nan).
Proof.
  apply (featurize_empty_table (W := unit) (np := pandas_mean)
           {[ "destination_port" := []; "packet_count" := []; "duration" := [];
              "protocol" := [] ]} tt); reflexivity.
Defined.

Lemma len_set_le_length (column : list cell) :
  len_set column <= Z.of_nat (length column).
Proof.
  unfold len_set. apply inj_le.
  induction column as [|x column IH]; [reflexivity|].
  rewrite list_to_set_cons. cbn [length].
  destruct (decide (x ∈ (list_to_set column : gset cell))) as [Hin|Hout].
  - rewrite (subseteq_union_1_L {[x]} (list_to_set column))
      by (apply singleton_subseteq_l; exact Hin).
    lia.
  - rewrite size_union by (apply disjoint_singleton_l; exact Hout).
    rewrite size_singleton. lia.
Qed.

Lemma len_set_pos (column : list cell) : column ≠ [] -> 1 <= len_set column.
Proof.
  intros Hne. unfold len_set.
  destruct column as [|x column]; [congruence|].
  assert (size (list_to_set (C := gset cell) (x :: column)) ≠ 0%nat); [|lia].
  apply size_non_empty_iff. intros Hempty.
  apply (not_elem_of_empty (C := gset cell) x). rewrite <- Hempty.
  apply elem_of_list_to_set. left.
Qed.

Lemma len_set_all_distinct (column : list cell) :
  len_set column = Z.of_nat (length column) <-> NoDup column.
Proof.
  split.
  - induction column as [|x column IH]; intros Hsize; [apply NoDup_nil_2|].
    pose proof (len_set_le_length column) as Hle.
    unfold len_set in *. rewrite list_to_set_cons in Hsize. cbn [length] in Hsize.
    destruct (decide (x ∈ (list_to_set column : gset cell))) as [Hin|Hout].
    + rewrite (subseteq_union_1_L {[x]} (list_to_set column)) in Hsize
        by (apply singleton_subseteq_l; exact Hin).
      lia.
    + rewrite size_union in Hsize by (apply disjoint_singleton_l; exact Hout).
      rewrite size_singleton in Hsize.
      apply NoDup_cons. split.
      * intros Hx. apply Hout, elem_of_list_to_set, Hx.
      * apply IH. lia.
  - intros Hnd. unfold len_set. f_equal. apply size_list_to_set, Hnd.
Qed.

(** X8. Whenever [featurize] returns, unique_ports is a count within
    range: between 0 and the number of rows, at least 1 exactly when the
    table has a row, and equal to the number of rows exactly when no port
    occurs twice. *)
Theorem unique_ports_range {W} {np : Numpy} (df : gmap string (list cell))
  (ports : list cell) (features : gmap string pyvalue) (w : W) :
  df !! "destination_port" = Some ports ->
  featurize df w = (Ok features, w) ->
  exists n,
    features !! "unique_ports" = Some (VInt n)
    /\ 0 <= n <= Z.of_nat (length ports)
    /\ (1 <= n <-> ports ≠ [])
    /\ (n = Z.of_nat (length ports) <-> NoDup ports).
Proof.
  intros Hports Hrun. exists (len_set ports).
  split; [|split; [|split]].
  - revert Hrun. unfold featurize, getitem. cbv [mbind nb_bind mret nb_ret lib].
    rewrite Hports.
    destruct (df !! "packet_count") as [packets|]; [|discriminate].
    destruct (np_mean packets); [|discriminate].
    destruct (df !! "duration") as [durations|]; [|discriminate].
    destruct (np_mean durations); [|discriminate].
    intros [= <-].
    rewrite !lookup_insert_ne by discriminate. apply lookup_singleton_eq.
  - split; [unfold len_set; lia|apply len_set_le_length].
  - split; [|apply len_set_pos].
    intros Hn ->. vm_compute in Hn. congruence.
  - apply len_set_all_distinct.
Qed.

Lemma unique_ports_range_witness :
  exists n,
    featurize (W := unit) (np := pandas_mean)
      {[ "destination_port" := [CStr "N17023"; CStr "N19148"; CStr "N17023"];
         "packet_count" := CInt <$> [1; 2; 4];
         "duration" := CInt <$> [0; 0; 3] ]} tt
    = (Ok (<["average_duration" := VFloat 1]>
           (<["average_packet" := VFloat 0x1.2aaaaaaaaaaabp+1]>
            {[ "unique_ports" := VInt n ]})), tt)
    /\ 0 <= n <= 3.
Proof.
  assert (Hrun : featurize (W := unit) (np := pandas_mean)
            {[ "destination_port" := [CStr "N17023"; CStr "N19148"; CStr "N17023"];
               "packet_count" := CInt <$> [1; 2; 4];
               "duration" := CInt <$> [0; 0; 3] ]} tt
          = (Ok (<["average_duration" := VFloat 1]>
                 (<["average_packet" := VFloat 0x1.2aaaaaaaaaaabp+1]>
                  {[ "unique_ports" := VInt 2 ]})), tt))
    by (vm_compute; reflexivity).
  assert (Hports : ({[ "destination_port" :=
                         [CStr "N17023"; CStr "N19148"; CStr "N17023"];
                       "packet_count" := CInt <$> [1; 2; 4];
                       "duration" := CInt <$> [0; 0; 3] ]} : gmap string (list cell))
                   !! "destination_port"
                   = Some [CStr "N17023"; CStr "N19148"; CStr "N17023"])
    by (vm_compute; reflexivity).
  destruct (unique_ports_range (W := unit) (np := pandas_mean) _ _ _ tt Hports Hrun)
    as (n & Hn & Hrange & _).
  exists n. split; [|exact Hrange].
  rewrite Hrun. do 4 f_equal.
  rewrite !lookup_insert_ne in Hn by discriminate.
  rewrite lookup_singleton_eq in Hn. congruence.
Defined.

(** ** Grid search: the best candidate, the size of the grid *)

Section GridSearchMore.
Context {V score : Type}.
Variable mean_test_score : gmap string V -> score.
Variable better : score -> score -> bool.
Variable search_failure : list (gmap string V) -> option exn.

Hypothesis better_irrefl : forall s, better s s = false.
Hypothesis better_trans :
  forall s1 s2 s3, better s1 s2 = true -> better s2 s3 = true -> better s1 s3 = true.

Lemma best_candidate_unbeaten (c : gmap string V) (cs : list (gmap string V)) :
  forall c', c' ∈ c :: cs ->
    better (mean_test_score c')
           (mean_test_score (best_candidate mean_test_score better c cs)) = false.
Proof.
  assert (Hgen : forall (seen : list (gmap string V)) cur,
            (forall c', c' ∈ seen ->
               better (mean_test_score c') (mean_test_score cur) = false) ->
            forall c', c' ∈ seen ++ cs ->
              better (mean_test_score c')
                     (mean_test_score (best_candidate mean_test_score better cur cs))
              = false).
  { induction cs as [|c1 cs IH]; intros seen cur Hseen c' Hin.
    - rewrite app_nil_r in Hin. apply Hseen, Hin.
    - cbn [best_candidate].
      apply (IH (seen ++ [c1])); [|rewrite <- app_assoc; exact Hin].
      intros e He. apply elem_of_app in He as [He|He].
      + destruct (better (mean_test_score c1) (mean_test_score cur)) eqn:Hb;
          [|apply Hseen, He].
        destruct (better (mean_test_score e) (mean_test_score c1)) eqn:He1;
          [|reflexivity].
        rewrite <- (Hseen e He). symmetry. apply (better_trans _ _ _ He1 Hb).
      + apply list_elem_of_singleton in He as ->.
        destruct (better (mean_test_score c1) (mean_test_score cur)) eqn:Hb;
          [apply better_irrefl|exact Hb]. }
  intros c' Hin. apply (Hgen [c] c); [|exact Hin].
  intros e He. apply list_elem_of_singleton in He as ->. apply better_irrefl.
Qed.

End GridSearchMore.

(** X9. The reported [best_params_] is a candidate of the grid that no
    candidate beats: whenever "scores better" is a strict order
    (irreflexive and transitive, as a comparison of ranks is), no
    combination from the grid scores better than the reported one. *)
Theorem best_params_unbeaten {V score}
  (mean_test_score : gmap string V -> score) (better : score -> score -> bool)
  (search_failure : list (gmap string V) -> option exn)
  (param_grid : gmap string (list V)) (best_params : gmap string V) :
  (forall s, better s s = false) ->
  (forall s1 s2 s3, better s1 s2 = true -> better s2 s3 = true -> better s1 s3 = true) ->
  grid_search_best_params mean_test_score better search_failure param_grid
    = Ok best_params ->
  best_params ∈ product (sorted_items param_grid)
  /\ forall c, c ∈ product (sorted_items param_grid) ->
       better (mean_test_score c) (mean_test_score best_params) = false.
Proof.
  intros Hirr Htrans Hfit.
  unfold grid_search_best_params, ParameterGrid in Hfit.
  destruct (decide (map_Forall _ param_grid)) as [Hne|Hempty];
    cbn [mbind outcome_bind] in Hfit; [|discriminate].
  destruct (product (sorted_items param_grid)) as [|c cs] eqn:Hprod; [discriminate|].
  destruct (search_failure (c :: cs)); [discriminate|].
  injection Hfit as <-. split.
  - apply best_candidate_elem.
  - apply best_candidate_unbeaten; assumption.
Qed.

(** The feature-engineering grid scored by the multiplier: 3 wins and
    neither 1 nor 2 beats it. *)
Lemma best_params_unbeaten_witness :
  ({[ "ft__multiplier" := 3 ]} : gmap string Z) ∈ product (sorted_items params_ft)
  /\ forall c, c ∈ product (sorted_items params_ft) ->
       (default 0 (({[ "ft__multiplier" := 3 ]} : gmap string Z) !! "ft__multiplier")
        <? default 0 (c !! "ft__multiplier")) = false.
Proof.
  apply (best_params_unbeaten (fun c => default 0 (c !! "ft__multiplier"))
           (fun s s' => s' <? s) (fun _ => None) params_ft {[ "ft__multiplier" := 3 ]}).
  - intros s. apply Z.ltb_irrefl.
  - intros s1 s2 s3 H12 H23. apply Z.ltb_lt in H12, H23. apply Z.ltb_lt. lia.
  - vm_compute. reflexivity.
Defined.

Lemma length_bind_const {A B} (f : A -> list B) (k : nat) (l : list A) :
  (forall x, length (f x) = k) -> length (l ≫= f) = (length l * k)%nat.
Proof.
  intros Hf. induction l as [|x l IH]; [reflexivity|].
  csimpl. rewrite length_app, Hf, IH. reflexivity.
Qed.

Lemma product_length {V} (items : list (string * list V)) :
  length (product items)
  = foldr (fun item acc => (length item.2 * acc)%nat) 1%nat items.
Proof.
  induction items as [|[name values] rest IH]; [reflexivity|].
  cbn [product foldr snd]. rewrite <- IH.
  apply length_bind_const. intros v.
  rewrite (length_bind_const _ 1); [lia|]. intros p. reflexivity.
Qed.

(** X10. [ParameterGrid] yields as many candidates as the product of the
    numbers of values listed for the parameters (one candidate, the empty
    combination, for a grid without parameters), and it raises
    [ValueError] exactly when some parameter lists no value. *)
Theorem ParameterGrid_size {V} (param_grid : gmap string (list V)) :
  (forall candidates,
     ParameterGrid param_grid = Ok candidates ->
     length candidates
     = foldr (fun item acc => (length item.2 * acc)%nat) 1%nat (map_to_list param_grid))
  /\ (ParameterGrid param_grid = Raise ValueError
      <-> exists name, param_grid !! name = Some [])
  /\ ParameterGrid (∅ : gmap string (list V)) = Ok [∅].
Proof.
  unfold ParameterGrid. split; [|split].
  - intros candidates Hc.
    destruct (decide (map_Forall _ param_grid)); [|discriminate].
    injection Hc as <-. rewrite product_length. unfold sorted_items.
    apply (foldr_permutation_proper (@eq nat)
             (fun (item : string * list V) acc => (length item.2 * acc)%nat) 1%nat).
    + intros a1 a2 b. lia.
    + apply merge_sort_Permutation.
  - destruct (decide (map_Forall _ param_grid)) as [Hall|Hnot].
    + split; [discriminate|]. intros [name Hname].
      exfalso. apply (Hall name [] Hname). reflexivity.
    + split; [|reflexivity]. intros _.
      apply map_not_Forall in Hnot as (name & values & Hl & Hlen); [|apply _].
      exists name. destruct values; [exact Hl|]. exfalso. apply Hlen. discriminate.
  - rewrite decide_True by (apply map_Forall_empty).
    unfold sorted_items. rewrite map_to_list_empty. reflexivity.
Qed.

Example params_pipeline_size :
  exists candidates,
    ParameterGrid params_pipeline = Ok candidates /\ length candidates = 4%nat.
Proof. eexists. split; vm_compute; reflexivity. Qed.

(** ** Weights for noisy labels *)

(** X11. The noisy-label weights have length max(100, n) for n training
    labels: they line up with the training set exactly when it has at
    least 100 examples. Whatever n is, the first 100 weights are 0.5 and
    every later one is 1.0. *)
Theorem noisy_weights_length (y_train_noisy : list bool) :
  Z.of_nat (length (noisy_weights y_train_noisy))
    = Z.max 100 (Z.of_nat (length y_train_noisy))
  /\ (length (noisy_weights y_train_noisy) = length y_train_noisy
      <-> (100 <= length y_train_noisy)%nat)
  /\ (forall i, (i < 100)%nat -> noisy_weights y_train_noisy !! i = Some 0.5%float)
  /\ (forall i, (100 <= i < length y_train_noisy)%nat ->
        noisy_weights y_train_noisy !! i = Some 1%float).
Proof.
  unfold noisy_weights, py_repeat.
  change (Z.to_nat 100) with 100%nat.
  split; [|split; [|split]].
  - rewrite length_app, !length_replicate. lia.
  - rewrite length_app, !length_replicate. lia.
  - intros i Hi. rewrite lookup_app_l by (rewrite length_replicate; lia).
    apply lookup_replicate_2, Hi.
  - intros i Hi. rewrite lookup_app_r by (rewrite length_replicate; lia).
    rewrite length_replicate. apply lookup_replicate_2. lia.
Qed.

Example noisy_weights_short_training_set :
  length (noisy_weights (replicate 30 true)) = 100%nat.
Proof. vm_compute. reflexivity. Qed.

(** ** Comprehensions and argmax *)

Lemma comprehension_Ok {A B} (f : A -> outcome B) (xs : list A) (ys : list B) :
  comprehension f xs = Ok ys <-> Forall2 (fun x y => f x = Ok y) xs ys.
Proof.
  revert ys. induction xs as [|x xs IH]; intros ys; cbn [comprehension].
  - split.
    + intros [= <-]. constructor.
    + intros Hall. inversion Hall. reflexivity.
  - split.
    + destruct (f x) as [y|e] eqn:Hfx; cbn [mbind outcome_bind]; [|discriminate].
      destruct (comprehension f xs) as [ys'|e] eqn:Hrest; cbn [mbind outcome_bind];
        [|discriminate].
      intros [= <-]. constructor; [exact Hfx|]. apply IH. reflexivity.
    + intros Hall. inversion Hall as [|? y ? ys' Hfx Hrest]; subst.
      rewrite Hfx. cbn [mbind outcome_bind].
      rewrite (proj2 (IH ys') Hrest). reflexivity.
Qed.

Lemma comprehension_Raise {A B} (f : A -> outcome B) (xs : list A) (e : exn) :
  comprehension f xs = Raise e -> exists x, x ∈ xs /\ f x = Raise e.
Proof.
  induction xs as [|x xs IH]; cbn [comprehension]; [discriminate|].
  destruct (f x) as [y|e'] eqn:Hfx; cbn [mbind outcome_bind].
  - destruct (comprehension f xs) as [ys'|e''] eqn:Hrest; cbn [mbind outcome_bind];
      [discriminate|].
    intros [= <-]. destruct (IH eq_refl) as (x' & Hin & Hx').
    exists x'. split; [right; exact Hin|exact Hx'].
  - intros [= <-]. exists x. split; [left|exact Hfx].
Qed.

Lemma argmax_from_spec (pre rest : list Qc) (best_index : nat) (best : Qc) :
  pre !! best_index = Some best ->
  (forall j x, pre !! j = Some x -> (x <= best)%Qc) ->
  (forall j x, (j < best_index)%nat -> pre !! j = Some x -> (x < best)%Qc) ->
  exists m,
    (pre ++ rest) !! argmax_from best_index best (length pre) rest = Some m
    /\ (forall j x, (pre ++ rest) !! j = Some x -> (x <= m)%Qc)
    /\ (forall j x, (j < argmax_from best_index best (length pre) rest)%nat ->
          (pre ++ rest) !! j = Some x -> (x < m)%Qc).
Proof.
  revert pre best_index best.
  induction rest as [|x rest IH]; intros pre best_index best Hbest Hmax Hfirst.
  - cbn [argmax_from]. rewrite app_nil_r. exists best. auto.
  - cbn [argmax_from].
    replace (pre ++ x :: rest) with ((pre ++ [x]) ++ rest)
      by (rewrite <- app_assoc; reflexivity).
    replace (S (length pre)) with (length (pre ++ [x]))
      by (rewrite length_app; cbn [length]; lia).
    case_bool_decide as Hlt.
    + apply IH.
      * rewrite lookup_app_r by lia. rewrite Nat.sub_diag. reflexivity.
      * intros j y Hj. apply lookup_app_Some in Hj as [Hj|[_ Hj]].
        -- apply Qclt_le_weak. eapply Qcle_lt_trans; [apply (Hmax _ _ Hj)|exact Hlt].
        -- apply list_lookup_singleton_Some in Hj as [_ ->]. apply Qcle_refl.
      * intros j y Hj Hy. rewrite lookup_app_l in Hy by exact Hj.
        eapply Qcle_lt_trans; [apply (Hmax _ _ Hy)|exact Hlt].
    + apply IH.
      * rewrite lookup_app_l by (apply lookup_lt_Some in Hbest; exact Hbest).
        exact Hbest.
      * intros j y Hj. apply lookup_app_Some in Hj as [Hj|[_ Hj]].
        -- apply (Hmax _ _ Hj).
        -- apply list_lookup_singleton_Some in Hj as [_ ->].
           apply Qcnot_lt_le, Hlt.
      * intros j y Hj Hy.
        rewrite lookup_app_l in Hy
          by (apply lookup_lt_Some in Hbest; lia).
        apply (Hfirst _ _ Hj Hy).
Qed.

Lemma np_argmax_spec (xs : list Qc) (i : nat) :
  np_argmax xs = Ok i ->
  exists m,
    xs !! i = Some m
    /\ (forall j x, xs !! j = Some x -> (x <= m)%Qc)
    /\ (forall j x, (j < i)%nat -> xs !! j = Some x -> (x < m)%Qc).
Proof.
  destruct xs as [|x rest]; cbn [np_argmax]; [discriminate|].
  intros [= <-]. apply (argmax_from_spec [x] rest 0 x).
  - reflexivity.
  - intros j y Hj. apply list_lookup_singleton_Some in Hj as [_ ->]. apply Qcle_refl.
  - intros j y Hj. lia.
Qed.

Lemma comprehension_compose {A B C} (f : A -> outcome B) (h : B -> outcome C)
  (xs : list A) (ys : list B) (zs : list C) :
  comprehension f xs = Ok ys -> comprehension h ys = Ok zs ->
  Forall2 (fun x z => (y ← f x; h y) = Ok z) xs zs.
Proof.
  intros Hf%comprehension_Ok Hh%comprehension_Ok.
  revert zs Hh. induction Hf as [|x y xs ys Hxy _ IH]; intros zs Hh.
  - inversion Hh. constructor.
  - inversion Hh as [|? z ? zs' Hyz Hrest]; subst.
    constructor; [|apply IH, Hrest].
    rewrite Hxy. exact Hyz.
Qed.

Lemma select_best_spec {C} (g : C -> outcome Qc) (candidates : list C)
  (values : list Qc) (best : nat) :
  Forall2 (fun c v => g c = Ok v) candidates values ->
  np_argmax values = Ok best ->
  exists c m,
    getitem_list candidates best = Ok c
    /\ c ∈ candidates
    /\ g c = Ok m
    /\ forall c' m', c' ∈ candidates -> g c' = Ok m' -> (m' <= m)%Qc.
Proof.
  intros Hall Hbest.
  destruct (np_argmax_spec values best Hbest) as (m & Hm & Hmax & _).
  destruct (Forall2_lookup_r _ _ _ _ _ Hall Hm) as (c & Hc & Hgc).
  exists c, m. unfold getitem_list. rewrite Hc.
  split; [reflexivity|]. split; [apply list_elem_of_lookup; eauto|].
  split; [exact Hgc|].
  intros c' m' Hin Hgc'.
  apply list_elem_of_lookup in Hin as [j Hj].
  destruct (Forall2_lookup_l _ _ _ _ _ Hall Hj) as (v & Hv & Hgv).
  assert (v = m') by congruence. subst v. apply (Hmax _ _ Hv).
Qed.

(** ** Thresholds on predicted probabilities *)

Lemma length_filter_impl {A} (P Q : A -> Prop)
  `{!forall x, Decision (P x)} `{!forall x, Decision (Q x)} (l : list A) :
  (forall x, P x -> Q x) -> (length (filter P l) <= length (filter Q l))%nat.
Proof.
  intros HPQ. induction l as [|x l IH]; [reflexivity|].
  rewrite !filter_cons.
  destruct (decide (P x)) as [HP|HP], (decide (Q x)) as [HQ|HQ]; cbn [length];
    try lia.
  exfalso. apply HQ, HPQ, HP.
Qed.

(** Flagging fewer samples cannot add a false positive nor remove a false
    negative. *)
Lemma fewer_flags_fewer_false_positives (y smaller larger : list bool) :
  length smaller = length larger ->
  (forall i, smaller !! i = Some true -> larger !! i = Some true) ->
  false_positive_count y smaller <= false_positive_count y larger
  /\ false_negative_count y larger <= false_negative_count y smaller.
Proof.
  intros Hlen Hsub. unfold false_positive_count, false_negative_count.
  split; apply inj_le, length_filter_impl.
  - intros i [Hy Hp]. split; [exact Hy|apply Hsub, Hp].
  - intros i [Hy Hp]. split; [exact Hy|].
    destruct (smaller !! i) as [[|]|] eqn:Hs.
    + rewrite (Hsub i Hs) in Hp. discriminate.
    + reflexivity.
    + apply lookup_lt_Some in Hp. apply lookup_ge_None in Hs. lia.
Qed.

Lemma threshold_preds_Ok (scores : list (list Qc)) (thr : Qc) (preds : list bool) :
  threshold_preds scores thr = Ok preds <->
  Forall2 (fun s p => exists q, s !! 1%nat = Some q /\ p = bool_decide (thr < q)%Qc)
          scores preds.
Proof.
  unfold threshold_preds. rewrite comprehension_Ok.
  split; intros Hall; eapply Forall2_impl; try exact Hall;
    intros s p; cbv beta; unfold getitem_list;
    destruct (s !! 1%nat) as [q|]; cbn [mbind outcome_bind].
  - intros [= <-]. eauto.
  - discriminate.
  - intros (q' & [= <-] & ->). reflexivity.
  - intros (q' & ? & _). discriminate.
Qed.

(** X12. Raising the threshold can only withdraw positive predictions:
    for thresholds thr1 <= thr2 on the same scores, every sample flagged
    at thr2 is flagged at thr1, so against any labels the false positives
    do not increase and the false negatives do not decrease; and a
    threshold at or above every predicted probability flags nothing. *)
Theorem threshold_monotone (scores : list (list Qc)) (thr1 thr2 : Qc)
  (preds1 preds2 : list bool) :
  (thr1 <= thr2)%Qc ->
  threshold_preds scores thr1 = Ok preds1 ->
  threshold_preds scores thr2 = Ok preds2 ->
  length preds1 = length scores /\ length preds2 = length scores
  /\ (forall i, preds2 !! i = Some true -> preds1 !! i = Some true)
  /\ (forall y_test,
        false_positive_count y_test preds2 <= false_positive_count y_test preds1
        /\ false_negative_count y_test preds1 <= false_negative_count y_test preds2)
  /\ ((forall s q, s ∈ scores -> s !! 1%nat = Some q -> (q <= thr2)%Qc) ->
      preds2 = replicate (length scores) false).
Proof.
  intros Hle H1%threshold_preds_Ok H2%threshold_preds_Ok.
  pose proof (Forall2_length _ _ _ H1) as Hlen1.
  pose proof (Forall2_length _ _ _ H2) as Hlen2.
  assert (Hsub : forall i, preds2 !! i = Some true -> preds1 !! i = Some true).
  { intros i Hi.
    destruct (Forall2_lookup_r _ _ _ _ _ H2 Hi) as (s & Hs & q & Hq & Hflag).
    destruct (Forall2_lookup_l _ _ _ _ _ H1 Hs) as (p1 & Hp1 & q' & Hq' & ->).
    rewrite Hp1. f_equal. assert (q' = q) by congruence. subst q'.
    symmetry in Hflag. apply bool_decide_eq_true in Hflag.
    apply bool_decide_eq_true. eapply Qcle_lt_trans; eassumption. }
  split; [symmetry; exact Hlen1|]. split; [symmetry; exact Hlen2|].
  split; [exact Hsub|]. split.
  - intros y_test. apply fewer_flags_fewer_false_positives; [congruence|exact Hsub].
  - intros Hall. clear H1 Hlen1 Hsub Hlen2.
    induction H2 as [|s p scores' preds' (q & Hq & ->) _ IH]; [reflexivity|].
    cbn [length replicate]. f_equal.
    + apply bool_decide_eq_false, Qcle_not_lt. apply (Hall s q); [left|exact Hq].
    + apply IH. intros s' q' Hin. apply Hall. right. exact Hin.
Qed.

Lemma threshold_monotone_witness :
  (Q2Qc (1 # 4) <= Q2Qc (3 # 4))%Qc
  /\ threshold_preds [[Q2Qc (1 # 2); Q2Qc (1 # 2)]; [Q2Qc (1 # 10); Q2Qc (9 # 10)]]
       (Q2Qc (1 # 4)) = Ok [true; true]
  /\ threshold_preds [[Q2Qc (1 # 2); Q2Qc (1 # 2)]; [Q2Qc (1 # 10); Q2Qc (9 # 10)]]
       (Q2Qc (3 # 4)) = Ok [false; true]
  /\ false_positive_count [false; true] [false; true]
     <= false_positive_count [false; true] [true; true].
Proof.
  assert (Hle : (Q2Qc (1 # 4) <= Q2Qc (3 # 4))%Qc) by (vm_compute; discriminate).
  assert (H1 : threshold_preds
                 [[Q2Qc (1 # 2); Q2Qc (1 # 2)]; [Q2Qc (1 # 10); Q2Qc (9 # 10)]]
                 (Q2Qc (1 # 4)) = Ok [true; true]) by (vm_compute; reflexivity).
  assert (H2 : threshold_preds
                 [[Q2Qc (1 # 2); Q2Qc (1 # 2)]; [Q2Qc (1 # 10); Q2Qc (9 # 10)]]
                 (Q2Qc (3 # 4)) = Ok [false; true]) by (vm_compute; reflexivity).
  split; [exact Hle|]. split; [exact H1|]. split; [exact H2|].
  destruct (threshold_monotone _ _ _ _ _ Hle H1 H2) as (_ & _ & _ & Hy & _).
  exact (proj1 (Hy [false; true])).
Defined.

(** X13. The reported threshold is one of the thresholds tried, and no
    threshold tried gives a better value of the metric; with no threshold
    to try, [np.argmax] raises [ValueError]. *)
Theorem best_threshold_spec (metric : list bool -> list bool -> outcome Qc)
  (scores : list (list Qc)) (y_test : list bool) (thresholds : list Qc) :
  (forall thr,
     best_threshold metric scores y_test thresholds = Ok thr ->
     thr ∈ thresholds
     /\ exists preds m,
          threshold_preds scores thr = Ok preds
          /\ metric y_test preds = Ok m
          /\ forall thr' preds' m',
               thr' ∈ thresholds ->
               threshold_preds scores thr' = Ok preds' ->
               metric y_test preds' = Ok m' -> (m' <= m)%Qc)
  /\ best_threshold metric scores y_test [] = Raise ValueError.
Proof.
  split; [|reflexivity].
  intros thr. unfold best_threshold.
  destruct (comprehension (threshold_preds scores) thresholds) as [preds|e] eqn:Hp;
    cbn [mbind outcome_bind]; [|discriminate].
  destruct (comprehension (metric y_test) preds) as [values|e] eqn:Hv;
    cbn [mbind outcome_bind]; [|discriminate].
  destruct (np_argmax values) as [best|e] eqn:Hbest;
    cbn [mbind outcome_bind]; [|discriminate].
  intros Hthr.
  destruct (select_best_spec _ _ _ _ (comprehension_compose _ _ _ _ _ Hp Hv) Hbest)
    as (c & m & Hc & Hin & Hgc & Hmax).
  assert (c = thr) by congruence. subst c.
  split; [exact Hin|].
  destruct (threshold_preds scores thr) as [preds_thr|e] eqn:Hpt;
    cbn [mbind outcome_bind] in Hgc; [|discriminate].
  exists preds_thr, m. split; [reflexivity|]. split; [exact Hgc|].
  intros thr' preds' m' Hin' Hp' Hm'. apply (Hmax thr' m' Hin').
  rewrite Hp'. exact Hm'.
Qed.

Lemma best_threshold_spec_witness :
  best_threshold (fun y p => Ok (Qc_of_Z (Z.of_nat (agreements y p))))
    [[Q2Qc (1 # 2); Q2Qc (1 # 2)]; [Q2Qc (1 # 10); Q2Qc (9 # 10)]] [false; true] t_range
  = Ok (Q2Qc (1 # 2))
  /\ Q2Qc (1 # 2) ∈ t_range.
Proof.
  assert (Hrun : best_threshold (fun y p => Ok (Qc_of_Z (Z.of_nat (agreements y p))))
                   [[Q2Qc (1 # 2); Q2Qc (1 # 2)]; [Q2Qc (1 # 10); Q2Qc (9 # 10)]]
                   [false; true] t_range
                 = Ok (Q2Qc (1 # 2))) by (vm_compute; reflexivity).
  split; [exact Hrun|].
  exact (proj1 (proj1 (best_threshold_spec _ _ _ _) _ Hrun)).
Defined.

(** ** The sliding window *)

(** X14. [arrh.loc[t_now - w_size + 1 : t_now]] is the block of rows
    labelled from max(t_now - w_size + 1, 0) to min(t_now, n - 1): when
    the window fits (1 <= w_size <= t_now + 1 and t_now < n) it has
    exactly w_size rows, the last of them row t_now; otherwise it is cut
    at the table's ends. *)
Theorem sliding_window_rows {A} (arrh : list A) (t_now w_size : Z) :
  Z.of_nat (length (loc_slice (t_now - w_size + 1) t_now arrh))
    = Z.max 0 (Z.min t_now (Z.of_nat (length arrh) - 1)
               - Z.max (t_now - w_size + 1) 0 + 1)
  /\ (forall k,
        Z.of_nat k <= t_now - Z.max (t_now - w_size + 1) 0 ->
        loc_slice (t_now - w_size + 1) t_now arrh !! k
        = arrh !! (Z.to_nat (Z.max (t_now - w_size + 1) 0) + k)%nat)
  /\ (1 <= w_size <= t_now + 1 -> t_now < Z.of_nat (length arrh) ->
      length (loc_slice (t_now - w_size + 1) t_now arrh) = Z.to_nat w_size
      /\ loc_slice (t_now - w_size + 1) t_now arrh !! (Z.to_nat w_size - 1)%nat
         = arrh !! Z.to_nat t_now).
Proof.
  unfold loc_slice.
  assert (Hlen : Z.of_nat (length (take (Z.to_nat (t_now + 1 - Z.max (t_now - w_size + 1) 0))
                                        (drop (Z.to_nat (Z.max (t_now - w_size + 1) 0)) arrh)))
                 = Z.max 0 (Z.min t_now (Z.of_nat (length arrh) - 1)
                            - Z.max (t_now - w_size + 1) 0 + 1)).
  { rewrite length_take, length_drop. lia. }
  assert (Hlook : forall k,
            Z.of_nat k <= t_now - Z.max (t_now - w_size + 1) 0 ->
            take (Z.to_nat (t_now + 1 - Z.max (t_now - w_size + 1) 0))
                 (drop (Z.to_nat (Z.max (t_now - w_size + 1) 0)) arrh) !! k
            = arrh !! (Z.to_nat (Z.max (t_now - w_size + 1) 0) + k)%nat).
  { intros k Hk. rewrite lookup_take_lt by lia. apply lookup_drop. }
  split; [exact Hlen|]. split; [exact Hlook|].
  intros Hw Hn. split; [lia|].
  rewrite Hlook by lia. f_equal. lia.
Qed.

Lemma py_range_ascending (start stop step : Z) :
  0 < step ->
  exists l,
    py_range start stop step = Ok l
    /\ forall x, x ∈ l <-> start <= x < stop /\ (x - start) mod step = 0.
Proof.
  intros Hstep. unfold py_range.
  rewrite decide_False by lia. rewrite decide_True by lia.
  eexists. split; [reflexivity|].
  intros x. rewrite list_elem_of_fmap. setoid_rewrite elem_of_seqZ.
  split.
  - intros (k & -> & Hk0 & Hk).
    assert (k + 1 <= (stop - start + step - 1) / step) as Hq by lia.
    assert (step * (k + 1) <= stop - start + step - 1).
    { etransitivity; [apply Z.mul_le_mono_nonneg_l; [lia|exact Hq]|].
      apply Z.mul_div_le. lia. }
    split; [nia|].
    replace (start + k * step - start) with (k * step) by lia.
    apply Z.mod_mul. lia.
  - intros [[Hlo Hhi] Hmod].
    apply Z.mod_divide in Hmod as [k Hk]; [|lia].
    exists k. split; [lia|].
    assert (0 <= k) by nia.
    split; [lia|].
    assert (k + 1 <= (stop - start + step - 1) / step); [|lia].
    apply Z.div_le_lower_bound; [lia|]. nia.
Qed.

(** X15. The sliding-window search returns one of the window sizes it
    tried and none of them scores better; the sizes tried by the cell are
    those of range(10, 100, 10), so the reported optimal window is a
    multiple of 10 between 10 and 90 and is never 100. *)
Theorem optimal_window_spec {A} (evaluate : list A -> outcome Qc) (arrh : list A) :
  (forall (t_now : Z) (wrange : list Z) (w : Z),
     sliding_window_search evaluate arrh t_now wrange = Ok w ->
     w ∈ wrange
     /\ exists m,
          evaluate (loc_slice (t_now - w + 1) t_now arrh) = Ok m
          /\ forall w' m', w' ∈ wrange ->
               evaluate (loc_slice (t_now - w' + 1) t_now arrh) = Ok m' ->
               (m' <= m)%Qc)
  /\ (forall w, optimal_window_cell evaluate arrh = Ok w ->
        10 <= w <= 90 /\ w mod 10 = 0)
  /\ (forall t_now, sliding_window_search evaluate arrh t_now [] = Raise ValueError).
Proof.
  assert (Hsearch : forall (t_now : Z) (wrange : list Z) (w : Z),
            sliding_window_search evaluate arrh t_now wrange = Ok w ->
            w ∈ wrange
            /\ exists m,
                 evaluate (loc_slice (t_now - w + 1) t_now arrh) = Ok m
                 /\ forall w' m', w' ∈ wrange ->
                      evaluate (loc_slice (t_now - w' + 1) t_now arrh) = Ok m' ->
                      (m' <= m)%Qc).
  { intros t_now wrange w. unfold sliding_window_search.
    destruct (comprehension _ wrange) as [accuracies|e] eqn:Hacc;
      cbn [mbind outcome_bind]; [|discriminate].
    destruct (np_argmax accuracies) as [best|e] eqn:Hbest;
      cbn [mbind outcome_bind]; [|discriminate].
    intros Hw. apply comprehension_Ok in Hacc.
    destruct (select_best_spec _ _ _ _ Hacc Hbest) as (c & m & Hc & Hin & Hgc & Hmax).
    assert (c = w) by congruence. subst c.
    split; [exact Hin|]. exists m. split; [exact Hgc|exact Hmax]. }
  split; [exact Hsearch|]. split; [|reflexivity].
  intros w. unfold optimal_window_cell.
  destruct (py_range_ascending 10 100 10) as (l & Hl & Hmem); [lia|].
  rewrite Hl. cbn [mbind outcome_bind]. intros Hw.
  apply Hsearch in Hw as [Hin _]. apply Hmem in Hin as [[Hlo Hhi] Hmod].
  assert (Hw10 : w mod 10 = 0).
  { apply Z.mod_divide in Hmod as [k Hk]; [|lia].
    apply Z.mod_divide; [lia|]. exists (k + 1). lia. }
  split; [|exact Hw10].
  apply Z.mod_divide in Hw10 as [k Hk]; [|lia]. lia.
Qed.

(** A score that prefers the window of 30 rows. *)
Lemma optimal_window_spec_witness :
  optimal_window_cell
    (fun window : list nat => Ok (Qc_of_Z (- Z.abs (Z.of_nat (length window) - 30))))
    (seq 0 452)
  = Ok 30
  /\ 10 <= 30 <= 90 /\ 30 mod 10 = 0.
Proof.
  assert (Hrun : optimal_window_cell
                   (fun window : list nat =>
                      Ok (Qc_of_Z (- Z.abs (Z.of_nat (length window) - 30))))
                   (seq 0 452)
                 = Ok 30) by (vm_compute; reflexivity).
  split; [exact Hrun|].
  exact (proj1 (proj2 (optimal_window_spec _ _)) _ Hrun).
Defined.

(** ** The port and packet heuristics *)

Lemma mask_select_none {A} (rows : list A) (mask : list bool) :
  mask ≠ [] -> length mask = length rows -> (forall b, b ∈ mask -> b = false) ->
  mask_select rows mask = Ok (Rows []).
Proof.
  intros Hne Hlen Hall. unfold mask_select.
  destruct mask as [|b0 mask0] eqn:Hmask; [congruence|]. rewrite <- Hmask in *.
  rewrite decide_True by exact Hlen.
  do 3 f_equal. clear Hlen Hne Hmask. revert mask Hall.
  induction rows as [|r rows IH]; intros [|b mask] Hall; try reflexivity.
  cbn [zip zip_with]. rewrite filter_cons.
  assert (b = false) as -> by (apply Hall; left).
  rewrite decide_False by discriminate.
  apply IH. intros b' Hb'. apply Hall. right. exact Hb'.
Qed.

Lemma zip_with_andb_all_false (l : list bool) (n : nat) :
  length l = n -> zip_with andb l (replicate n false) = replicate n false.
Proof.
  revert n. induction l as [|a l IH]; intros [|n] Hlen; try discriminate;
    [reflexivity|].
  cbn [replicate zip_with]. rewrite andb_false_r. f_equal.
  apply IH. cbn [length] in Hlen. congruence.
Qed.

(** No binary64 number is below or above [nan]. *)
Lemma ltb_nan_l (x : float) : PrimFloat.ltb nan x = false.
Proof. rewrite ltb_spec. reflexivity. Qed.

Lemma ltb_nan_r (x : float) : PrimFloat.ltb x nan = false.
Proof.
  rewrite ltb_spec. change (Prim2SF nan) with S754_nan.
  destruct (Prim2SF x); reflexivity.
Qed.

Lemma fmap_const_false {A} (f : A -> bool) (xs : list A) :
  (forall x, f x = false) -> f <$> xs = replicate (length xs) false.
Proof.
  intros Hf. induction xs as [|x xs IH]; [reflexivity|].
  cbn [fmap list_fmap length replicate]. rewrite Hf. f_equal. exact IH.
Qed.

(** X16. The combined heuristic flags a subset of what the port heuristic
    flags: whenever the two cells return, both predictions have one entry
    per test host, every host the combined heuristic flags the port
    heuristic flags too, and so against any labels the combined one has
    no more false positives and no fewer false negatives. With one label
    per training host, and at least one, both cells return; when none of
    the labels is positive the mean of the empty selection is [nan] and
    neither heuristic flags anything. The empty list of labels selects no
    column and both cells raise [KeyError]; labels of another number than
    the training hosts raise [ValueError]. *)
Theorem combined_heuristic_is_stricter {np : Numpy}
  (X_train : list host) (y_train : list bool) (X_test : list host) :
  (forall port both,
     pred_port X_train y_train X_test = Ok port ->
     pred_both X_train y_train X_test = Ok both ->
     length port = length X_test /\ length both = length X_test
     /\ (forall i, both !! i = Some true -> port !! i = Some true)
     /\ (forall y_test,
           false_positive_count y_test both <= false_positive_count y_test port
           /\ false_negative_count y_test port <= false_negative_count y_test both))
  /\ (y_train ≠ [] -> length y_train = length X_train ->
      (exists port both,
         pred_port X_train y_train X_test = Ok port
         /\ pred_both X_train y_train X_test = Ok both)
      /\ ((forall b, b ∈ y_train -> b = false) ->
          pred_port X_train y_train X_test = Ok (replicate (length X_test) false)
          /\ pred_both X_train y_train X_test = Ok (replicate (length X_test) false)))
  /\ (y_train = [] ->
      pred_port X_train y_train X_test = Raise KeyError
      /\ pred_both X_train y_train X_test = Raise KeyError)
  /\ (y_train ≠ [] -> length y_train ≠ length X_train ->
      pred_port X_train y_train X_test = Raise ValueError
      /\ pred_both X_train y_train X_test = Raise ValueError).
Proof.
  split; [|split; [|split]].
  - intros port both Hport Hboth.
    unfold pred_both in Hboth. rewrite Hport in Hboth.
    destruct (mask_select X_train y_train) as [selected|];
      cbn [mbind outcome_bind] in Hboth; [|discriminate].
    destruct (selected_column average_packet selected) as [packets|];
      cbn [mbind outcome_bind] in Hboth; [|discriminate].
    injection Hboth as <-.
    set (packet := (fun h => PrimFloat.ltb (average_packet h) (np_mean_floats packets))
                     <$> X_test).
    assert (Hp : length port = length X_test).
    { unfold pred_port in Hport.
      destruct (avg_bad_ports X_train y_train); cbn [mbind outcome_bind] in Hport;
        [|discriminate].
      injection Hport as <-. apply length_fmap. }
    assert (Hpacket : length packet = length X_test) by (unfold packet; apply length_fmap).
    assert (Hsub : forall i, zip_with andb packet port !! i = Some true ->
                             port !! i = Some true).
    { intros i Hi. rewrite lookup_zip_with in Hi.
      destruct (packet !! i) as [a|]; [|discriminate].
      destruct (port !! i) as [b|]; [|discriminate].
      cbn in Hi. injection Hi as Hi. apply andb_true_iff in Hi as [_ ->]. reflexivity. }
    assert (Hb : length (zip_with andb packet port) = length X_test)
      by (rewrite length_zip_with_l_eq; congruence).
    split; [exact Hp|]. split; [exact Hb|]. split; [exact Hsub|].
    intros y_test. apply fewer_flags_fewer_false_positives; [congruence|exact Hsub].
  - intros Hne Hlen. split.
    + unfold pred_both, pred_port, avg_bad_ports, mask_select.
      destruct y_train as [|b y_train']; [congruence|].
      rewrite !decide_True by exact Hlen.
      cbn [mbind outcome_bind selected_column]. rewrite np_mean_CInt.
      cbn [mbind outcome_bind]. eexists _, _. split; reflexivity.
    + intros Hnone. unfold pred_both, pred_port, avg_bad_ports.
      rewrite (mask_select_none X_train y_train Hne Hlen Hnone).
      cbn [mbind outcome_bind selected_column fmap list_fmap np_mean np_mean_floats].
      rewrite (fmap_const_false _ X_test (fun h => ltb_nan_l _)).
      split; [reflexivity|]. f_equal.
      apply zip_with_andb_all_false, length_fmap.
  - intros ->. split; reflexivity.
  - intros Hne Hlen. unfold pred_both, pred_port, avg_bad_ports, mask_select.
    destruct y_train as [|b y_train']; [congruence|].
    rewrite !decide_False by exact Hlen. split; reflexivity.
Qed.

(** Two bad training hosts using 20 and 30 ports with 1 and 3 packets on
    average: the thresholds are 25 ports and 2 packets. *)
Lemma combined_heuristic_is_stricter_witness :
  pred_port (np := pandas_mean)
    [Host 20 1 0; Host 2 5 0; Host 30 3 0] [true; false; true]
    [Host 40 1 0; Host 40 9 0; Host 3 1 0] = Ok [true; true; false]
  /\ pred_both (np := pandas_mean)
       [Host 20 1 0; Host 2 5 0; Host 30 3 0] [true; false; true]
       [Host 40 1 0; Host 40 9 0; Host 3 1 0] = Ok [true; false; false]
  /\ length [true; true; false] = length [Host 40 1 0; Host 40 9 0; Host 3 1 0]
  /\ false_positive_count [false; true; false] [true; false; false]
     <= false_positive_count [false; true; false] [true; true; false].
Proof.
  assert (Hport : pred_port (np := pandas_mean)
                    [Host 20 1 0; Host 2 5 0; Host 30 3 0] [true; false; true]
                    [Host 40 1 0; Host 40 9 0; Host 3 1 0] = Ok [true; true; false])
    by (vm_compute; reflexivity).
  assert (Hboth : pred_both (np := pandas_mean)
                    [Host 20 1 0; Host 2 5 0; Host 30 3 0] [true; false; true]
                    [Host 40 1 0; Host 40 9 0; Host 3 1 0] = Ok [true; false; false])
    by (vm_compute; reflexivity).
  destruct (proj1 (combined_heuristic_is_stricter (np := pandas_mean)
                     [Host 20 1 0; Host 2 5 0; Host 30 3 0] [true; false; true]
                     [Host 40 1 0; Host 40 9 0; Host 3 1 0])
                  _ _ Hport Hboth)
    as (Hlen & _ & _ & Hcounts).
  split; [exact Hport|]. split; [exact Hboth|]. split; [exact Hlen|].
  exact (proj1 (Hcounts [false; true; false])).
Defined.

Example heuristics_mask_of_wrong_length :
  pred_port (np := pandas_mean) [Host 20 1 0; Host 2 5 0] [true] [Host 40 1 0]
  = Raise ValueError.
Proof. vm_compute. reflexivity. Qed.

(** ** abs_diff *)



Example abs_diff_of_three :
  abs_diff (np := pandas_mean) [1; 2; 6] = Ok [2; 1; 3]%float.
Proof. vm_compute. reflexivity. Qed.

(** ** Label encoding *)

Lemma elem_of_classes (column : list cell) (x : cell) :
  x ∈ classes column <-> x ∈ column.
Proof. unfold classes. rewrite merge_sort_Permutation. apply elem_of_remove_dups. Qed.

Lemma length_classes (column : list cell) :
  Z.of_nat (length (classes column)) = len_set column.
Proof.
  unfold classes, len_set. f_equal.
  rewrite (Permutation_length (merge_sort_Permutation cell_le (remove_dups column))).
  rewrite <- (size_list_to_set (C := gset cell) (remove_dups column))
    by apply NoDup_remove_dups.
  f_equal. apply set_eq. intros x.
  rewrite !elem_of_list_to_set. apply elem_of_remove_dups.
Qed.

Lemma class_index_spec (x : cell) (cls : list cell) :
  x ∈ cls ->
  0 <= class_index x cls < Z.of_nat (length cls)
  /\ cls !! Z.to_nat (class_index x cls) = Some x.
Proof.
  intros Hin. unfold class_index.
  destruct (list_find_elem_of (fun c => c = x) cls x Hin eq_refl) as [[i y] Hfind].
  rewrite Hfind. apply list_find_Some in Hfind as (Hi & -> & _).
  rewrite Nat2Z.id. split; [|exact Hi].
  apply lookup_lt_Some in Hi. lia.
Qed.

(** X18. Label encoding is a relabelling: on a column of strings only, or
    of integers only, [fit_transform] returns a column of the same length
    whose codes run from 0 to below the number of distinct values, the
    code of a value being the position of that value among the classes
    (so decoding gives the value back, and two entries get the same code
    exactly when they are equal). A column mixing integers and strings is
    rejected with [TypeError]. *)
Theorem fit_transform_codes (column : list cell) :
  (uniform column = true ->
   exists codes,
     fit_transform column = Ok codes
     /\ length codes = length column
     /\ (forall i x, column !! i = Some x ->
           exists c, codes !! i = Some (CInt c)
                     /\ 0 <= c < len_set column
                     /\ classes column !! Z.to_nat c = Some x)
     /\ (forall i j x y ci cj,
           column !! i = Some x -> column !! j = Some y ->
           codes !! i = Some (CInt ci) -> codes !! j = Some (CInt cj) ->
           (ci = cj <-> x = y)))
  /\ (uniform column = false -> fit_transform column = Raise TypeError).
Proof.
  unfold fit_transform. split; intros Hu; rewrite Hu; [|reflexivity].
  assert (Hcode : forall i x, column !! i = Some x ->
            exists c,
              ((fun x => CInt (class_index x (classes column))) <$> column) !! i
                = Some (CInt c)
              /\ 0 <= c < len_set column
              /\ classes column !! Z.to_nat c = Some x).
  { intros i x Hx. exists (class_index x (classes column)).
    rewrite list_lookup_fmap, Hx. split; [reflexivity|].
    rewrite <- length_classes. apply class_index_spec, elem_of_classes.
    apply list_elem_of_lookup. eauto. }
  eexists. split; [reflexivity|]. split; [apply length_fmap|]. split; [exact Hcode|].
  intros i j x y ci cj Hx Hy Hci Hcj.
  destruct (Hcode i x Hx) as (ci' & Hci' & _ & Hdi).
  destruct (Hcode j y Hy) as (cj' & Hcj' & _ & Hdj).
  assert (ci' = ci) by congruence. assert (cj' = cj) by congruence. subst ci' cj'.
  split.
  - intros ->. congruence.
  - intros ->. rewrite list_lookup_fmap, Hx in Hci. rewrite list_lookup_fmap, Hy in Hcj.
    cbn in Hci, Hcj. congruence.
Qed.

Lemma fit_transform_codes_witness :
  uniform [CStr "radio"; CStr "car"; CStr "radio"; CStr "education"] = true
  /\ fit_transform [CStr "radio"; CStr "car"; CStr "radio"; CStr "education"]
     = Ok [CInt 2; CInt 0; CInt 2; CInt 1]
  /\ fit_transform [CStr "radio"; CInt 3] = Raise TypeError.
Proof.
  split; [reflexivity|]. split; [vm_compute; reflexivity|].
  exact (proj2 (fit_transform_codes [CStr "radio"; CInt 3]) eq_refl).
Defined.

Lemma encode_columns_app (done rest : list string) (credit : gmap string (list cell)) :
  encode_columns (done ++ rest) credit
  = match encode_columns done credit with
    | (Ok _, credit') => encode_columns rest credit'
    | (Raise e, credit') => (Raise e, credit')
    end.
Proof.
  revert credit. induction done as [|column done IH]; intros credit; [reflexivity|].
  cbn [app encode_columns]. unfold frame_get, frame_set, getitem.
  cbv [mbind nb_bind mret nb_ret lib].
  destruct (credit !! column) as [values|]; [|reflexivity].
  destruct (fit_transform values) as [codes|e]; [|reflexivity].
  apply IH.
Qed.

Lemma fit_transform_uniform (values : list cell) :
  uniform values = true ->
  fit_transform values
  = Ok ((fun x => CInt (class_index x (classes values))) <$> values).
Proof. intros Hu. unfold fit_transform. rewrite Hu. reflexivity. Qed.

Lemma encode_columns_ok (columns : list string) (credit : gmap string (list cell)) :
  NoDup columns ->
  (forall c, c ∈ columns ->
     exists values, credit !! c = Some values /\ uniform values = true) ->
  exists credit',
    encode_columns columns credit = (Ok (), credit')
    /\ dom credit' = dom credit
    /\ (forall c, c ∉ columns -> credit' !! c = credit !! c)
    /\ (forall c values, c ∈ columns -> credit !! c = Some values ->
          exists codes, fit_transform values = Ok codes /\ credit' !! c = Some codes).
Proof.
  revert credit. induction columns as [|column rest IH]; intros credit Hnd Hall.
  - exists credit. split; [reflexivity|]. split; [reflexivity|].
    split; [reflexivity|]. intros c values Hin. inversion Hin.
  - apply NoDup_cons in Hnd as [Hfresh Hnd].
    destruct (Hall column) as (values & Hvalues & Hu); [left|].
    pose proof (fit_transform_uniform values Hu) as Hfit.
    set (codes := (fun x => CInt (class_index x (classes values))) <$> values) in *.
    destruct (IH (<[column := codes]> credit) Hnd) as (credit' & Hrun & Hdom & Hout & Hin).
    { intros c Hc. rewrite lookup_insert_ne by (intros ->; contradiction).
      apply Hall. right. exact Hc. }
    exists credit'. split; [|split; [|split]].
    + cbn [encode_columns]. unfold frame_get, frame_set, getitem.
      cbv [mbind nb_bind mret nb_ret lib]. rewrite Hvalues, Hfit. exact Hrun.
    + rewrite Hdom. apply dom_insert_lookup_L. eauto.
    + intros c Hc. apply not_elem_of_cons in Hc as [Hne Hc].
      rewrite (Hout c Hc). apply lookup_insert_ne. congruence.
    + intros c values' Hc Hvalues'. apply elem_of_cons in Hc as [->|Hc].
      * assert (values' = values) by congruence. subst values'.
        exists codes. split; [exact Hfit|].
        rewrite (Hout column Hfresh). apply lookup_insert_eq.
      * apply (Hin c values' Hc).
        rewrite lookup_insert_ne by (intros ->; contradiction). exact Hvalues'.
Qed.

(** X19. The encoding loop replaces each listed column by its codes and
    touches nothing else: when every listed column is present and holds
    strings only or integers only, the loop ends normally, the frame
    keeps its column names, every column that is not listed is unchanged,
    and every listed column holds the codes of its former content. *)
Theorem encode_columns_frame (columns : list string)
  (credit : gmap string (list cell)) :
  NoDup columns ->
  (forall c, c ∈ columns ->
     exists values, credit !! c = Some values /\ uniform values = true) ->
  exists credit',
    encode_columns columns credit = (Ok (), credit')
    /\ dom credit' = dom credit
    /\ (forall c, c ∉ columns -> credit' !! c = credit !! c)
    /\ (forall c values, c ∈ columns -> credit !! c = Some values ->
          exists codes,
            fit_transform values = Ok codes
            /\ credit' !! c = Some codes
            /\ length codes = length values).
Proof.
  intros Hnd Hall.
  destruct (encode_columns_ok columns credit Hnd Hall)
    as (credit' & Hrun & Hdom & Hout & Hin).
  exists credit'. split; [exact Hrun|]. split; [exact Hdom|]. split; [exact Hout|].
  intros c values Hc Hvalues.
  destruct (Hin c values Hc Hvalues) as (codes & Hfit & Hcodes).
  exists codes. split; [exact Hfit|]. split; [exact Hcodes|].
  unfold fit_transform in Hfit. destruct (uniform values); [|discriminate].
  injection Hfit as <-. apply length_fmap.
Qed.

Lemma encode_columns_frame_witness :
  exists credit',
    encode_columns ["purpose"; "housing"]
      {[ "purpose" := [CStr "radio"; CStr "car"; CStr "radio"];
         "housing" := [CStr "own"; CStr "own"; CStr "rent"];
         "duration" := [CInt 6; CInt 48; CInt 12] ]}
    = (Ok (), credit')
    /\ credit' !! "duration" = Some [CInt 6; CInt 48; CInt 12]
    /\ credit' !! "purpose" = Some [CInt 1; CInt 0; CInt 1].
Proof.
  destruct (encode_columns_frame ["purpose"; "housing"]
              {[ "purpose" := [CStr "radio"; CStr "car"; CStr "radio"];
                 "housing" := [CStr "own"; CStr "own"; CStr "rent"];
                 "duration" := [CInt 6; CInt 48; CInt 12] ]})
    as (credit' & Hrun & _ & Hout & Hin).
  - repeat constructor; rewrite ?list_elem_of_singleton; try discriminate.
    intros Hin. inversion Hin.
  - intros c Hc. apply elem_of_cons in Hc as [->|Hc];
      [|apply list_elem_of_singleton in Hc as ->];
      eexists; split; reflexivity.
  - exists credit'. split; [exact Hrun|]. split.
    + rewrite Hout; [reflexivity|].
      intros Hc. apply elem_of_cons in Hc as [Hc|Hc]; [discriminate|].
      apply list_elem_of_singleton in Hc. discriminate.
    + destruct (Hin "purpose" [CStr "radio"; CStr "car"; CStr "radio"])
        as (codes & Hfit & Hcodes & _); [left|reflexivity|].
      rewrite Hcodes. f_equal.
      assert (Hc : fit_transform [CStr "radio"; CStr "car"; CStr "radio"]
                   = Ok [CInt 1; CInt 0; CInt 1]) by (vm_compute; reflexivity).
      congruence.
Defined.

(** X20. The loop stops at the first listed column the frame lacks, with
    [KeyError], and does not undo what it did: the columns listed before
    it are already encoded, every other column is as it was. *)
Theorem encode_columns_missing (done rest : list string) (missing : string)
  (credit : gmap string (list cell)) :
  NoDup done ->
  (forall c, c ∈ done ->
     exists values, credit !! c = Some values /\ uniform values = true) ->
  missing ∉ done -> credit !! missing = None ->
  exists credit',
    encode_columns (done ++ missing :: rest) credit = (Raise KeyError, credit')
    /\ dom credit' = dom credit
    /\ (forall c, c ∉ done -> credit' !! c = credit !! c)
    /\ (forall c values, c ∈ done -> credit !! c = Some values ->
          exists codes, fit_transform values = Ok codes /\ credit' !! c = Some codes).
Proof.
  intros Hnd Hall Hfresh Hmissing.
  destruct (encode_columns_ok done credit Hnd Hall)
    as (credit' & Hrun & Hdom & Hout & Hin).
  exists credit'. split; [|split; [exact Hdom|split; [exact Hout|exact Hin]]].
  rewrite encode_columns_app, Hrun.
  cbn [encode_columns]. unfold frame_get, getitem.
  cbv [mbind nb_bind mret nb_ret lib].
  rewrite (Hout missing Hfresh), Hmissing. reflexivity.
Qed.

Lemma encode_columns_missing_witness :
  exists credit',
    encode_columns (["purpose"] ++ "housing" :: ["job"])
      {[ "purpose" := [CStr "radio"; CStr "car"; CStr "radio"];
         "job" := [CStr "skilled"; CStr "skilled"; CStr "unskilled"] ]}
    = (Raise KeyError, credit')
    /\ credit' !! "job" = Some [CStr "skilled"; CStr "skilled"; CStr "unskilled"]
    /\ credit' !! "purpose" = Some [CInt 1; CInt 0; CInt 1].
Proof.
  destruct (encode_columns_missing ["purpose"] ["job"] "housing"
              {[ "purpose" := [CStr "radio"; CStr "car"; CStr "radio"];
                 "job" := [CStr "skilled"; CStr "skilled"; CStr "unskilled"] ]})
    as (credit' & Hrun & _ & Hout & Hin).
  - repeat constructor. intros Hc. inversion Hc.
  - intros c Hc. apply list_elem_of_singleton in Hc as ->.
    eexists; split; reflexivity.
  - intros Hc. apply list_elem_of_singleton in Hc. discriminate.
  - reflexivity.
  - exists credit'. split; [exact Hrun|]. split.
    + rewrite Hout; [reflexivity|].
      intros Hc. apply list_elem_of_singleton in Hc. discriminate.
    + destruct (Hin "purpose" [CStr "radio"; CStr "car"; CStr "radio"])
        as (codes & Hfit & Hcodes); [left|reflexivity|].
      rewrite Hcodes. f_equal.
      assert (Hc : fit_transform [CStr "radio"; CStr "car"; CStr "radio"]
                   = Ok [CInt 1; CInt 0; CInt 1]) by (vm_compute; reflexivity).
      congruence.
Defined.

(** ** Data fusion *)

Lemma group_rows_fmap {A B} (f : A -> B) (key : cell) (keys : list cell)
  (column : list A) :
  group_rows key keys (f <$> column) = f <$> group_rows key keys column.
Proof.
  unfold group_rows. revert keys.
  induction column as [|v column IH]; intros [|k keys]; try reflexivity.
  cbn [fmap list_fmap zip zip_with]. rewrite !filter_cons. cbn [snd].
  destruct (decide (k = key)); cbn [fmap list_fmap fst]; [f_equal|]; apply IH.
Qed.

Lemma group_rows_nonempty {A} (key : cell) (keys : list cell) (column : list A) :
  key ∈ keys -> length column = length keys -> group_rows key keys column ≠ [].
Proof.
  unfold group_rows. intros Hin. revert column.
  induction Hin as [key keys|key k keys Hin IH]; intros [|v column] Hlen;
    try discriminate; cbn [zip zip_with]; rewrite filter_cons; cbn [snd].
  - rewrite decide_True by reflexivity. discriminate.
  - destruct (decide (k = key)); [discriminate|].
    apply IH. cbn [length] in Hlen. congruence.
Qed.

Lemma comprehension_fmap {A B} (f : A -> outcome B) (g : A -> B) (xs : list A) :
  (forall x, x ∈ xs -> f x = Ok (g x)) -> comprehension f xs = Ok (g <$> xs).
Proof.
  induction xs as [|x xs IH]; intros Hall; [reflexivity|].
  cbn [comprehension]. rewrite (Hall x) by left. cbn [mbind outcome_bind].
  rewrite IH by (intros x' Hx'; apply Hall; right; exact Hx'). reflexivity.
Qed.

Lemma NoDup_classes (column : list cell) : NoDup (classes column).
Proof. unfold classes. rewrite merge_sort_Permutation. apply NoDup_remove_dups. Qed.

Lemma groupby_apply_rows {B} (df : gmap string (list cell)) (by_column : string)
  (func : gmap string (list cell) -> outcome B) (keys : list cell) :
  df !! by_column = Some keys -> keys ≠ [] ->
  groupby_apply df by_column func
  = comprehension (fun key => value ← func (group_frame key keys df); Ok (key, value))
                  (classes keys).
Proof.
  intros Hkeys Hne. unfold groupby_apply, getitem. rewrite Hkeys.
  cbn [mbind outcome_bind]. destruct keys; [congruence|reflexivity].
Qed.

Lemma groupby_apply_no_row {B} (df : gmap string (list cell)) (by_column : string)
  (func : gmap string (list cell) -> outcome B) :
  df !! by_column = Some [] ->
  groupby_apply df by_column func = (_ ← func (take 0 <$> df); Ok []).
Proof.
  intros Hkeys. unfold groupby_apply, getitem. rewrite Hkeys. reflexivity.
Qed.

Lemma featurize_group {np : Numpy} (flows : gmap string (list cell))
  (keys ports : list cell) (packets durations : list Z) (key : cell) :
  flows !! "destination_port" = Some ports ->
  flows !! "packet_count" = Some (CInt <$> packets) ->
  flows !! "duration" = Some (CInt <$> durations) ->
  length packets = length keys -> length durations = length keys ->
  key ∈ keys ->
  (featurize (group_frame key keys flows) ()).1
  = Ok (<["average_duration" := VFloat (mean_int64 (group_rows key keys durations))]>
        (<["average_packet" := VFloat (mean_int64 (group_rows key keys packets))]>
         {[ "unique_ports" := VInt (len_set (group_rows key keys ports)) ]})).
Proof.
  intros Hports Hpackets Hdurations Hlk Hld Hkey.
  rewrite (featurize_run (group_frame key keys flows)
             (group_rows key keys ports) (CInt <$> group_rows key keys packets)
             (CInt <$> group_rows key keys durations)
             (mean_int64 (group_rows key keys packets))
             (mean_int64 (group_rows key keys durations)) ()).
  - reflexivity.
  - unfold group_frame. rewrite lookup_fmap, Hports. reflexivity.
  - unfold group_frame. rewrite lookup_fmap, Hpackets. cbn [fmap option_fmap option_map].
    rewrite group_rows_fmap. reflexivity.
  - unfold group_frame. rewrite lookup_fmap, Hdurations.
    cbn [fmap option_fmap option_map]. rewrite group_rows_fmap. reflexivity.
  - apply np_mean_int64, group_rows_nonempty; assumption.
  - apply np_mean_int64, group_rows_nonempty; assumption.
Qed.

Lemma featurize_no_row {np : Numpy} (flows : gmap string (list cell))
  (ports packets durations : list cell) :
  flows !! "destination_port" = Some ports ->
  flows !! "packet_count" = Some packets ->
  flows !! "duration" = Some durations ->
  exists features, (featurize (take 0 <$> flows) ()).1 = Ok features.
Proof.
  intros Hports Hpackets Hdurations. eexists.
  rewrite (featurize_run (take 0 <$> flows) [] [] [] nan nan ()); try reflexivity.
  - rewrite lookup_fmap, Hports. reflexivity.
  - rewrite lookup_fmap, Hpackets. reflexivity.
  - rewrite lookup_fmap, Hdurations. reflexivity.
Qed.

(** X21. The fused feature table has one row per distinct source
    computer, each source once, with its label next to it. On a flows
    table with the four columns (integers in packet_count and duration)
    and at least one row the cell does not fail: the index of [X] is
    duplicate-free and holds exactly the source computers of the table,
    [y] has one label per row and the label of a row tells whether its
    source is among the attacked computers; the features of a row are
    those of the flows of its source alone, and since a group is never
    empty, every row has at least one unique port. On a flows table
    without any row the cell raises [ValueError], at the construction of
    [X]. *)
Theorem fusion_cell_features {np : Numpy} (attack flows : gmap string (list cell))
  (bads keys ports : list cell) (packets durations : list Z) :
  attack !! "destination_computer" = Some bads ->
  flows !! "source_computer" = Some keys ->
  flows !! "destination_port" = Some ports ->
  flows !! "packet_count" = Some (CInt <$> packets) ->
  flows !! "duration" = Some (CInt <$> durations) ->
  length ports = length keys -> length packets = length keys ->
  length durations = length keys ->
  (keys ≠ [] ->
   exists X y,
     fusion_cell attack flows = Ok (X, y)
     /\ NoDup X.*1
     /\ (forall k, k ∈ X.*1 <-> k ∈ keys)
     /\ Z.of_nat (length X) = len_set keys
     /\ length y = length X
     /\ forall i k f, X !! i = Some (k, f) ->
          y !! i = Some (bool_decide (k ∈ bads))
          /\ f !! "unique_ports" = Some (VInt (len_set (group_rows k keys ports)))
          /\ 1 <= len_set (group_rows k keys ports)
          /\ f !! "average_packet"
             = Some (VFloat (mean_int64 (group_rows k keys packets)))
          /\ f !! "average_duration"
             = Some (VFloat (mean_int64 (group_rows k keys durations))))
  /\ (keys = [] -> fusion_cell attack flows = Raise ValueError).
Proof.
  intros Hbads Hkeys Hports Hpackets Hdurations Hlp Hlk Hld. split.
  2:{ intros ->. unfold fusion_cell, getattr.
      rewrite Hbads, (groupby_apply_no_row _ _ _ Hkeys). cbn [mbind outcome_bind].
      destruct (featurize_no_row flows _ _ _ Hports Hpackets Hdurations)
        as [features ->].
      reflexivity. }
  intros Hne.
  set (features_of := fun key : cell =>
         <["average_duration" := VFloat (mean_int64 (group_rows key keys durations))]>
         (<["average_packet" := VFloat (mean_int64 (group_rows key keys packets))]>
          ({[ "unique_ports" := VInt (len_set (group_rows key keys ports)) ]}
             : gmap string pyvalue))).
  set (X := (fun key => (key, features_of key)) <$> classes keys).
  assert (Hindex : X.*1 = classes keys).
  { unfold X. rewrite <- list_fmap_compose. apply list_fmap_id. }
  assert (Hrun : groupby_apply flows "source_computer"
                   (fun group => (featurize group ()).1) = Ok X).
  { rewrite (groupby_apply_rows _ _ _ keys Hkeys Hne).
    apply comprehension_fmap. intros key Hkey.
    rewrite (featurize_group flows keys ports packets durations key); try assumption.
    - reflexivity.
    - apply elem_of_classes, Hkey. }
  assert (HX : data_frame X = Ok X).
  { unfold data_frame. destruct X as [|row X'] eqn:HeqX; [|reflexivity].
    exfalso. apply (f_equal length) in Hindex. cbn in Hindex.
    pose proof (length_classes keys) as Hlen. rewrite <- Hindex in Hlen.
    pose proof (len_set_pos keys Hne). cbn in Hlen. lia. }
  exists X, ((fun x => bool_decide (x ∈ bads)) <$> X.*1).
  split; [|split; [|split; [|split; [|split]]]].
  - unfold fusion_cell, getattr. rewrite Hbads. cbn [mbind outcome_bind].
    rewrite Hrun. cbn [mbind outcome_bind]. rewrite HX. reflexivity.
  - rewrite Hindex. apply NoDup_classes.
  - intros k. rewrite Hindex. apply elem_of_classes.
  - unfold X. rewrite length_fmap. apply length_classes.
  - rewrite !length_fmap. reflexivity.
  - intros i k f Hi. unfold X in Hi. rewrite list_lookup_fmap in Hi.
    destruct (classes keys !! i) as [key|] eqn:Hkey; [|discriminate].
    cbn in Hi. injection Hi as <- <-.
    assert (Hin : key ∈ keys)
      by (apply elem_of_classes, list_elem_of_lookup; eauto).
    split; [|split; [|split; [|split]]].
    + rewrite list_lookup_fmap, Hindex, Hkey. reflexivity.
    + unfold features_of. rewrite !lookup_insert_ne by discriminate.
      apply lookup_singleton_eq.
    + apply len_set_pos, group_rows_nonempty; assumption.
    + unfold features_of. rewrite lookup_insert_ne by discriminate.
      apply lookup_insert_eq.
    + apply lookup_insert_eq.
Qed.

Lemma fusion_cell_features_witness :
  exists X y,
    fusion_cell (np := pandas_mean)
      {[ "destination_computer" := [CStr "C5808"] ]}
      {[ "source_computer" := [CStr "C5808"; CStr "C17693"; CStr "C5808"];
         "destination_port" := [CStr "N17023"; CStr "N19148"; CStr "N17023"];
         "packet_count" := CInt <$> [1; 2; 4];
         "duration" := CInt <$> [0; 0; 3] ]}
    = Ok (X, y)
    /\ X.*1 = [CStr "C17693"; CStr "C5808"]
    /\ y = [false; true].
Proof.
  destruct (fusion_cell_features (np := pandas_mean)
              ({[ "destination_computer" := [CStr "C5808"] ]}
                 : gmap string (list cell))
              ({[ "source_computer" := [CStr "C5808"; CStr "C17693"; CStr "C5808"];
                  "destination_port" := [CStr "N17023"; CStr "N19148"; CStr "N17023"];
                  "packet_count" := CInt <$> [1; 2; 4];
                  "duration" := CInt <$> [0; 0; 3] ]} : gmap string (list cell))
              [CStr "C5808"] [CStr "C5808"; CStr "C17693"; CStr "C5808"]
              [CStr "N17023"; CStr "N19148"; CStr "N17023"] [1; 2; 4] [0; 0; 3])
    as [Hrows _]; try (vm_compute; reflexivity).
  destruct Hrows as (X & y & Hrun & _); [discriminate|].
  exists X, y. split; [exact Hrun|].
  assert (Hc : (fun r : list (cell * gmap string pyvalue) * list bool => (r.1.*1, r.2))
               <$> (match fusion_cell (np := pandas_mean)
                      {[ "destination_computer" := [CStr "C5808"] ]}
                      {[ "source_computer" := [CStr "C5808"; CStr "C17693"; CStr "C5808"];
                         "destination_port" :=
                           [CStr "N17023"; CStr "N19148"; CStr "N17023"];
                         "packet_count" := CInt <$> [1; 2; 4];
                         "duration" := CInt <$> [0; 0; 3] ]}
                    with Ok r => Some r | Raise _ => None end)
               = Some ([CStr "C17693"; CStr "C5808"], [false; true]))
    by (vm_compute; reflexivity).
  rewrite Hrun in Hc. cbn in Hc. injection Hc as H1 H2. split; assumption.
Defined.

Lemma groupby_apply_index {B} (df : gmap string (list cell)) (by_column : string)
  (func : gmap string (list cell) -> outcome B) (out : list (cell * B)) :
  groupby_apply df by_column func = Ok out ->
  exists keys, df !! by_column = Some keys /\ out.*1 = classes keys.
Proof.
  destruct (df !! by_column) as [keys|] eqn:Hkeys;
    [|unfold groupby_apply, getitem; rewrite Hkeys; discriminate].
  intros Hrun. exists keys. split; [reflexivity|].
  destruct (decide (keys = [])) as [->|Hne].
  { rewrite (groupby_apply_no_row _ _ _ Hkeys) in Hrun.
    destruct (func (take 0 <$> df)); cbn [mbind outcome_bind] in Hrun; [|discriminate].
    injection Hrun as <-. reflexivity. }
  rewrite (groupby_apply_rows _ _ _ keys Hkeys Hne) in Hrun.
  apply comprehension_Ok in Hrun.
  induction Hrun as [|key r ks rs Hr _ IH]; [reflexivity|].
  cbn [fmap list_fmap]. rewrite <- IH. f_equal.
  destruct (func (group_frame key keys df)); cbn [mbind outcome_bind] in Hr;
    [|discriminate].
  injection Hr as <-. reflexivity.
Qed.

Lemma group_rows_length {A} (key : cell) (keys : list cell) (column : list A) :
  length column = length keys ->
  length (group_rows key keys column) = length (filter (fun x => x = key) keys).
Proof.
  unfold group_rows. rewrite length_fmap. revert column.
  induction keys as [|k keys IH]; intros [|v column] Hlen; try discriminate;
    [reflexivity|].
  cbn [zip zip_with]. rewrite !filter_cons. cbn [snd].
  cbn [length] in Hlen.
  destruct (decide (k = key)); cbn [length]; rewrite IH by congruence; reflexivity.
Qed.

(** X22. The protocol feature lines up with the feature table: on a
    flows table with a protocol column, counting the unique protocols per
    source does not fail and gives one count per distinct source computer,
    indexed by the same sources in the same order as the table [X] of the
    data-fusion cell (whenever that cell succeeds), and each count lies
    between 1 and the number of flows of its source. *)
Theorem protocols_feature {np : Numpy} (flows : gmap string (list cell))
  (keys protos : list cell) :
  flows !! "source_computer" = Some keys ->
  flows !! "protocol" = Some protos ->
  length protos = length keys ->
  exists protocols,
    protocols_cell flows = Ok protocols
    /\ (forall attack X y, fusion_cell attack flows = Ok (X, y) -> protocols.*1 = X.*1)
    /\ forall k n, (k, n) ∈ protocols ->
         1 <= n <= Z.of_nat (length (filter (fun x => x = k) keys)).
Proof.
  intros Hkeys Hprotos Hlen.
  set (protocols := (fun key => (key, len_set (group_rows key keys protos)))
                      <$> classes keys).
  assert (Hrun : protocols_cell flows = Ok protocols).
  { unfold protocols_cell. destruct (decide (keys = [])) as [Hnil|Hne].
    - subst keys. rewrite (groupby_apply_no_row _ _ _ Hkeys).
      unfold getitem. rewrite lookup_fmap, Hprotos. reflexivity.
    - rewrite (groupby_apply_rows _ _ _ keys Hkeys Hne).
      apply comprehension_fmap. intros key _.
      unfold group_frame, getitem. rewrite lookup_fmap, Hprotos. reflexivity. }
  exists protocols. split; [exact Hrun|split].
  - intros attack X y Hfusion. unfold fusion_cell in Hfusion.
    destruct (getattr attack "destination_computer") as [bads|];
      cbn [mbind outcome_bind] in Hfusion; [|discriminate].
    destruct (groupby_apply flows "source_computer"
                (fun group => (featurize group ()).1)) as [out|] eqn:Hout;
      cbn [mbind outcome_bind] in Hfusion; [|discriminate].
    destruct (data_frame out) as [X'|] eqn:HX; cbn [mbind outcome_bind] in Hfusion;
      [|discriminate].
    injection Hfusion as <- _.
    assert (X' = out) as ->
      by (unfold data_frame in HX; destruct out; [discriminate|congruence]).
    apply groupby_apply_index in Hout as (keys' & Hkeys' & ->).
    apply groupby_apply_index in Hrun as (keys'' & Hkeys'' & ->).
    congruence.
  - intros k n Hin. unfold protocols in Hin.
    apply list_elem_of_fmap in Hin as (key & [= -> ->] & Hkey).
    apply (proj1 (elem_of_classes _ _)) in Hkey. split.
    + apply len_set_pos, group_rows_nonempty; [exact Hkey|exact Hlen].
    + rewrite <- (group_rows_length key keys protos Hlen). apply len_set_le_length.
Qed.

Lemma protocols_feature_witness :
  exists protocols,
    protocols_cell
      {[ "source_computer" := [CStr "C5808"; CStr "C17693"; CStr "C5808"];
         "protocol" := [CInt 6; CInt 6; CInt 17] ]}
    = Ok protocols
    /\ protocols = [(CStr "C17693", 1); (CStr "C5808", 2)].
Proof.
  destruct (protocols_feature (np := pandas_mean)
              ({[ "source_computer" := [CStr "C5808"; CStr "C17693"; CStr "C5808"];
                  "protocol" := [CInt 6; CInt 6; CInt 17] ]}
                 : gmap string (list cell))
              [CStr "C5808"; CStr "C17693"; CStr "C5808"]
              [CInt 6; CInt 6; CInt 17])
    as (protocols & Hrun & _); try (vm_compute; reflexivity).
  exists protocols. split; [exact Hrun|].
  assert (Hc : protocols_cell
                 {[ "source_computer" := [CStr "C5808"; CStr "C17693"; CStr "C5808"];
                    "protocol" := [CInt 6; CInt 6; CInt 17] ]}
               = Ok [(CStr "C17693", 1); (CStr "C5808", 2)])
    by (vm_compute; reflexivity).
  congruence.
Defined.
(** ** Exceptions *)




